(** * Tic-tac-toe: the [TicTacToe] class of [tic_tac_toe.py]

    The class keeps a 3x3 board as a Python list of three row lists and the
    mark of the player to move.  Python lists are mutable objects that are
    reached through references, so the embedding keeps an explicit object
    store: the outer list and each row are objects of the store, and a board
    is a reference to an outer list.  Every method is a computation in a
    state-and-exception monad over the store and the two attributes of
    [self]. *)

From stdpp Require Import gmap strings list fin_maps.
From Stdlib Require Import ZArith Lia.

Open Scope string_scope.
Open Scope Z_scope.

(** ** The object store *)

(** References to list objects. *)
Abbreviation loc := positive.

(** The list objects the program builds: the outer list of a board holds
    references to its rows, a row holds cells.  A cell is a Python [str]
    (immutable, so it is held by value); the program writes [' '], ['X']
    and ['O'] only. *)
Inductive obj :=
  | ORows (rows : list loc)
  | OCells (cells : list string).

(** The state a method runs in: the store and the attributes of [self]. *)
Record state := State {
  store : gmap loc obj;
  board : loc;               (* self.board *)
  current_player : string    (* self.current_player *)
}.

(** ** Outcomes *)

(** [IndexError] is Python's.  [Stuck] marks a store that is not one of this
    program's: a reference with no object, or a list of the wrong kind where
    the code indexes twice.  No behaviour of Python is modelled there. *)
Inductive exn := IndexError | Stuck.

Inductive res (A : Type) :=
  | Ok (a : A)
  | Raise (e : exn).
Arguments Ok {A} a.
Arguments Raise {A} e.

Definition M (A : Type) : Type := state → res (A * state).

Definition ret {A} (a : A) : M A := λ s, Ok (a, s).
Definition raise {A} (e : exn) : M A := λ _, Raise e.
Definition bind {A B} (k : A → M B) (m : M A) : M B :=
  λ s, match m s with
       | Ok (a, s') => k a s'
       | Raise e => Raise e
       end.

#[global] Instance M_ret : MRet M := @ret.
#[global] Instance M_bind : MBind M := @bind.

(** ** Python list primitives *)

(** [xs[i]] for a Python int [i]: negative indices count from the end,
    anything outside [-len, len) raises [IndexError] ([None] here). *)
Definition py_index {A} (xs : list A) (i : Z) : option nat :=
  let n := Z.of_nat (length xs) in
  if (0 <=? i) && (i <? n) then Some (Z.to_nat i)
  else if (- n <=? i) && (i <? 0) then Some (Z.to_nat (n + i))
  else None.

(** [self.board] *)
Definition self_board : M loc := λ s, Ok (board s, s).

(** [self.current_player] *)
Definition self_current_player : M string := λ s, Ok (current_player s, s).

(** [self.current_player = p] *)
Definition set_current_player (p : string) : M unit :=
  λ s, Ok (tt, State (store s) (board s) p).

(** [self.board = b] *)
Definition set_board (b : loc) : M unit :=
  λ s, Ok (tt, State (store s) b (current_player s)).

(** The items of the outer list at [b]. *)
Definition rows_of (b : loc) : M (list loc) :=
  λ s, match store s !! b with
       | Some (ORows rs) => Ok (rs, s)
       | _ => Raise Stuck
       end.

(** The items of the row at [r]. *)
Definition cells_of (r : loc) : M (list string) :=
  λ s, match store s !! r with
       | Some (OCells cs) => Ok (cs, s)
       | _ => Raise Stuck
       end.

(** [b[i]] on an outer list. *)
Definition getitem_rows (b : loc) (i : Z) : M loc :=
  rs ← rows_of b;
  match py_index rs i ≫= (rs !!.) with
  | Some r => ret r
  | None => raise IndexError
  end.

(** [r[j]] on a row. *)
Definition getitem_cells (r : loc) (j : Z) : M string :=
  cs ← cells_of r;
  match py_index cs j ≫= (cs !!.) with
  | Some v => ret v
  | None => raise IndexError
  end.

(** The object at [l] is replaced: every reference to [l] sees the change. *)
Definition put_obj (l : loc) (o : obj) : M unit :=
  λ s, Ok (tt, State (<[l := o]> (store s)) (board s) (current_player s)).

(** [r[j] = v] on a row: the row object is updated in place. *)
Definition setitem_cells (r : loc) (j : Z) (v : string) : M unit :=
  cs ← cells_of r;
  match py_index cs j with
  | Some n => put_obj r (OCells (<[n := v]> cs))
  | None => raise IndexError
  end.

(** A list display or comprehension builds a new list object. *)
Definition alloc (o : obj) : M loc :=
  λ s, let l := fresh (dom (store s)) in
       Ok (l, State (<[l := o]> (store s)) (board s) (current_player s)).

(** ** The class *)

(** [[[' ' for _ in range(3)] for _ in range(3)]]: the inner comprehension
    runs once per row, so the three rows are three objects. *)
Fixpoint blank_rows (n : nat) : M (list loc) :=
  match n with
  | O => ret []
  | S n' =>
      r ← alloc (OCells (replicate 3 " "));
      rs ← blank_rows n';
      ret (r :: rs)
  end.

Definition blank_board : M loc :=
  rs ← blank_rows 3;
  alloc (ORows rs).

(** [__init__]: runs on a new [self], in the store of the caller. *)
Definition init (h : gmap loc obj) : res (unit * state) :=
  (b ← blank_board;
   set_board b;;
   set_current_player "X") (State h 1%positive "").

(** [make_move(row, col)].  In the assignment to the cell the right-hand
    side is evaluated before the target. *)
Definition make_move (row col : Z) : M bool :=
  if negb (((0 <=? row) && (row <? 3)) && ((0 <=? col) && (col <? 3))) then
    ret false
  else
    b ← self_board;
    r ← getitem_rows b row;
    v ← getitem_cells r col;
    if negb (String.eqb v " ") then ret false
    else
      p ← self_current_player;
      b ← self_board;
      r ← getitem_rows b row;
      setitem_cells r col p;;
      p ← self_current_player;
      set_current_player (if String.eqb p "X" then "O" else "X");;
      ret true.

(** [a == b == c != ' ']: a chained comparison evaluates its operands from
    the left, each once, and stops at the first comparison that fails. *)
Definition chain3 (a b c : M string) : M bool :=
  x ← a;
  y ← b;
  if negb (String.eqb x y) then ret false
  else
    z ← c;
    if negb (String.eqb y z) then ret false
    else ret (negb (String.eqb z " ")).

(** [self.board[i][j]] *)
Definition board_item (i j : Z) : M string :=
  b ← self_board;
  r ← getitem_rows b i;
  getitem_cells r j.

(** The loop over the rows; [Some] is a [return] out of the loop. *)
Fixpoint check_rows (rows : list loc) : M (option string) :=
  match rows with
  | [] => ret None
  | row :: rest =>
      w ← chain3 (getitem_cells row 0) (getitem_cells row 1)
                 (getitem_cells row 2);
      if (w : bool) then (v ← getitem_cells row 0; ret (Some v))
      else check_rows rest
  end.

(** The loop over [range(3)]. *)
Fixpoint check_cols (cols : list Z) : M (option string) :=
  match cols with
  | [] => ret None
  | col :: rest =>
      w ← chain3 (board_item 0 col) (board_item 1 col) (board_item 2 col);
      if (w : bool) then (v ← board_item 0 col; ret (Some v))
      else check_cols rest
  end.

(** [check_winner()]: [None] is Python's [None]. *)
Definition check_winner : M (option string) :=
  b ← self_board;
  rows ← rows_of b;
  w ← check_rows rows;
  match w with
  | Some v => ret (Some v)
  | None =>
      w ← check_cols [0; 1; 2];
      match w with
      | Some v => ret (Some v)
      | None =>
          d ← chain3 (board_item 0 0) (board_item 1 1) (board_item 2 2);
          if (d : bool) then (v ← board_item 0 0; ret (Some v))
          else
            d ← chain3 (board_item 0 2) (board_item 1 1) (board_item 2 0);
            if (d : bool) then (v ← board_item 0 2; ret (Some v))
            else ret None
      end
  end.

(** The loop of [is_board_full]; [' ' in row] scans the row. *)
Fixpoint full_rows (rows : list loc) : M bool :=
  match rows with
  | [] => ret true
  | row :: rest =>
      cs ← cells_of row;
      if existsb (String.eqb " ") cs then ret false
      else full_rows rest
  end.

(** [is_board_full()] *)
Definition is_board_full : M bool :=
  b ← self_board;
  rows ← rows_of b;
  full_rows rows.

(** [is_game_over()]: [or] evaluates its right operand only when the left
    one is false. *)
Definition is_game_over : M bool :=
  w ← check_winner;
  match w with
  | Some _ => ret true
  | None => is_board_full
  end.

(** [[row[:] for row in self.board]]: a slice of a list is a new list with
    the same items. *)
Fixpoint copy_rows (rows : list loc) : M (list loc) :=
  match rows with
  | [] => ret []
  | row :: rest =>
      cs ← cells_of row;
      r ← alloc (OCells cs);
      rs ← copy_rows rest;
      ret (r :: rs)
  end.

(** [get_board()] *)
Definition get_board : M loc :=
  b ← self_board;
  rows ← rows_of b;
  rs ← copy_rows rows;
  alloc (ORows rs).

(** [reset()] *)
Definition reset : M unit :=
  b ← blank_board;
  set_board b;;
  set_current_player "X".

(** ** Callers *)

(** One call of a method of the class by a client. *)
Inductive call :=
  | MakeMove (row col : Z)
  | CheckWinner
  | IsBoardFull
  | IsGameOver
  | GetBoard
  | Reset.

#[global] Instance call_eq_dec : EqDecision call.
Proof. solve_decision. Defined.

(** What the call hands back. *)
Inductive answer :=
  | ABool (b : bool)
  | AWinner (w : option string)
  | ABoard (b : loc)
  | ANone.

Definition do_call (c : call) : M answer :=
  match c with
  | MakeMove row col => b ← make_move row col; ret (ABool b)
  | CheckWinner => w ← check_winner; ret (AWinner w)
  | IsBoardFull => b ← is_board_full; ret (ABool b)
  | IsGameOver => b ← is_game_over; ret (ABool b)
  | GetBoard => b ← get_board; ret (ABoard b)
  | Reset => reset;; ret ANone
  end.

(** A call as a client sees it: the call, its answer, and
    [self.current_player] read before and after. *)
Record event := Event {
  ev_before : string;
  ev_call : call;
  ev_answer : answer;
  ev_after : string
}.

Fixpoint run_calls (cs : list call) : M (list event) :=
  match cs with
  | [] => ret []
  | c :: rest =>
      p ← self_current_player;
      a ← do_call c;
      q ← self_current_player;
      tr ← run_calls rest;
      ret (Event p c a q :: tr)
  end.

(** A client that holds a reference to a list can change that list, and can
    build lists of its own: a write puts an object at a location. *)
Definition mutate (ws : list (loc * obj)) (s : state) : state :=
  State (foldl (λ h w, <[w.1 := w.2]> h) (store s) ws)
        (board s) (current_player s).

(** ** Observations *)

(** The value of a two-level list: the rows, each with its cells. *)
Definition row_value (h : gmap loc obj) (r : loc) : option (list string) :=
  match h !! r with
  | Some (OCells cs) => Some cs
  | _ => None
  end.

Definition deep (h : gmap loc obj) (b : loc) : option (list (list string)) :=
  match h !! b with
  | Some (ORows rs) => mapM (row_value h) rs
  | _ => None
  end.

(** The board of the game, by value. *)
Definition grid (s : state) : option (list (list string)) :=
  deep (store s) (board s).

(** The cell at row [i], column [j] of a board value, and of the game. *)
Definition at_ (g : list (list string)) (ij : nat * nat) : option string :=
  row ← g !! ij.1; row !! ij.2.

Definition cell (s : state) (i j : nat) : option string :=
  g ← grid s; at_ g (i, j).

(** The list objects a board value is made of: the outer list and its
    rows. *)
Definition owned (h : gmap loc obj) (b : loc) : list loc :=
  b :: match h !! b with
       | Some (ORows rs) => rs
       | _ => []
       end.

Definition is_cell (v : string) : bool :=
  String.eqb v " " || String.eqb v "X" || String.eqb v "O".

Definition is_mark (v : string) : bool :=
  String.eqb v "X" || String.eqb v "O".

Definition other (p : string) : string :=
  if String.eqb p "X" then "O" else "X".

Definition row_ok (h : gmap loc obj) (r : loc) : bool :=
  match h !! r with
  | Some (OCells [a; b; c]) => is_cell a && is_cell b && is_cell c
  | _ => false
  end.

(** A game state: three rows, each a list object of its own with three
    cells, and a mark to move. *)
Definition wf (s : state) : bool :=
  match store s !! board s with
  | Some (ORows [r0; r1; r2]) =>
      row_ok (store s) r0 && row_ok (store s) r1 && row_ok (store s) r2
      && bool_decide (r0 ≠ r1) && bool_decide (r0 ≠ r2)
      && bool_decide (r1 ≠ r2)
      && is_mark (current_player s)
  | _ => false
  end.

Definition blank : list (list string) :=
  [[" "; " "; " "]; [" "; " "; " "]; [" "; " "; " "]].

(** How many cells of a board hold [p]. *)
Definition holds (p v : string) : nat :=
  if String.eqb v p then 1%nat else 0%nat.

Definition count_mark (p : string) (g : list (list string)) : nat :=
  sum_list (holds p <$> concat g).

(** The eight lines, in the order rows, columns, main diagonal,
    anti-diagonal. *)
Definition lines : list (list (nat * nat)) :=
  [ [(0, 0); (0, 1); (0, 2)]; [(1, 0); (1, 1); (1, 2)];
    [(2, 0); (2, 1); (2, 2)];
    [(0, 0); (1, 0); (2, 0)]; [(0, 1); (1, 1); (2, 1)];
    [(0, 2); (1, 2); (2, 2)];
    [(0, 0); (1, 1); (2, 2)];
    [(0, 2); (1, 1); (2, 0)] ]%nat.

(** A line wins when its three cells are equal and not empty; the winner is
    the mark they hold. *)
Definition wins3 (x y z : string) : bool :=
  String.eqb x y && String.eqb y z && negb (String.eqb z " ").

Definition line_winner (g : list (list string)) (l : list (nat * nat))
  : option string :=
  match mapM (at_ g) l with
  | Some [a; b; c] => if wins3 a b c then Some a else None
  | _ => None
  end.

(** The winner of the first line that wins. *)
Fixpoint first_winner (g : list (list string)) (ls : list (list (nat * nat)))
  : option string :=
  match ls with
  | [] => None
  | l :: rest =>
      match line_winner g l with
      | Some w => Some w
      | None => first_winner g rest
      end
  end.

(** No cell of the board value is empty. *)
Definition no_blank (g : list (list string)) : bool :=
  forallb (λ row, negb (existsb (String.eqb " ") row)) g.

(** A mark put at row [i], column [j] of a board value. *)
Definition place (g : list (list string)) (i j : nat) (p : string)
  : list (list string) :=
  alter (λ row, <[j := p]> row) i g.

(** The three cells of a line all hold [m], and [m] is not the empty
    cell. *)
Definition line_wins (g : list (list string)) (l : list (nat * nat))
    (m : string) : Prop :=
  Forall (λ ij, at_ g ij = Some m) l ∧ m ≠ " ".

(** A call of [make_move] that returned [True]. *)
Definition is_success (e : event) : bool :=
  match ev_call e, ev_answer e with
  | MakeMove _ _, ABool true => true
  | _, _ => false
  end.

(** [n] turns taken in alternation, [p] first. *)
Fixpoint turns (p : string) (n : nat) : list string :=
  match n with
  | O => []
  | S n' => p :: turns (other p) n'
  end.

(** The readings of [current_player] in a trace follow one another: each
    call starts with the player the call before it ended with. *)
Fixpoint linked (p : string) (tr : list event) (q : string) : Prop :=
  match tr with
  | [] => p = q
  | e :: rest => ev_before e = p ∧ linked (ev_after e) rest q
  end.

(** A write by a client of [get_board] that got [b]: it goes to one of the
    list objects of [b], or to an object that did not exist when [b] was
    handed out. *)
Definition client_write (s : state) (b : loc) (w : loc * obj) : Prop :=
  w.1 ∈ owned (store s) b ∨ w.1 ∉ dom (store s).

(** ** Sample runs *)

(** A game constructed in the empty store, and the state after a sequence
    of calls on it. *)
Definition new_game : state :=
  match init ∅ with
  | Ok (_, s) => s
  | Raise _ => State ∅ 1%positive ""
  end.

Definition played (cs : list call) : state :=
  match run_calls cs new_game with
  | Ok (_, s) => s
  | Raise _ => new_game
  end.

(** X takes the top row while O plays in the middle row. *)
Definition x_wins_top_row : list call :=
  [MakeMove 0 0; MakeMove 1 0; MakeMove 0 1; MakeMove 1 1; MakeMove 0 2].

(** A board no play reaches, with two complete lines: the rows of a new
    game are overwritten so that the middle row holds X and the bottom row
    holds O. *)
Definition two_winners : state :=
  match store new_game !! board new_game with
  | Some (ORows [_; r1; r2]) =>
      mutate [(r1, OCells ["X"; "X"; "X"]); (r2, OCells ["O"; "O"; "O"])]
             new_game
  | _ => new_game
  end.

(** The answers of a sequence of calls on a new game. *)
Definition answers (cs : list call) : option (list answer) :=
  match run_calls cs new_game with
  | Ok (tr, _) => Some (ev_answer <$> tr)
  | Raise _ => None
  end.

(** The moves of [test_tie_game] and [test_is_board_full]. *)
Definition tie_game : list call :=
  [MakeMove 0 0; MakeMove 0 1; MakeMove 0 2;
   MakeMove 1 1; MakeMove 1 0; MakeMove 1 2;
   MakeMove 2 1; MakeMove 2 0; MakeMove 2 2].

(** X has as many marks as O when X is to move, and one more when O is. *)
Definition parity (s : state) : Prop :=
  ∃ g, grid s = Some g
       ∧ ((current_player s = "X"
           ∧ count_mark "X" g = count_mark "O" g)
          ∨ (current_player s = "O"
             ∧ count_mark "X" g = S (count_mark "O" g))).

(** How one call moves [current_player]. *)
Definition turn_step (e : event) : Prop :=
  if is_success e then ev_after e = other (ev_before e)
  else ev_after e = ev_before e.

(** ** The console program

    [print_board] and the script under [if __name__ == "__main__"].  What
    the program writes is kept as the list of its writes, in order; what
    it reads is a list of entries, one per call of [input]. *)

(** One write to the terminal: [print(text)], which ends the line, or the
    prompt of [input(text)], which does not. *)
Inductive io :=
  | Print (text : string)
  | Prompt (text : string).

(** ["\n"] *)
Definition nl : string := String (Ascii.ascii_of_nat 10) "".

(** The loop of [print_board]: [i] is the index [enumerate] gives the
    row. *)
Fixpoint print_rows (i : nat) (rows : list loc) : M (list io) :=
  match rows with
  | [] => ret []
  | row :: rest =>
      cs ← cells_of row;
      o ← print_rows (S i) rest;
      ret (Print (" " ++ String.concat " | " cs)%string
           :: (if (i <? 2)%nat then [Print "-----------"] else [])
           ++ o)%list
  end.

(** [print_board(board)]: the lines it prints. *)
Definition print_board (b : loc) : M (list io) :=
  rows ← rows_of b;
  o ← print_rows 0 rows;
  ret (Print nl :: o ++ [Print nl])%list.

(** The truth value of what [check_winner] returns: [None] and the empty
    string are false. *)
Definition truthy (w : option string) : bool :=
  match w with
  | Some v => negb (String.eqb v "")
  | None => false
  end.

(** The writes [o], then the rest of the run. *)
Definition emit (o : list io) (m : M (list io * bool)) : M (list io * bool) :=
  r ← m; ret ((o ++ r.1)%list, r.2).

(** The [while] loop of the script.  An entry [Some z] is a line that
    [int] reads as [z]; [None] is a line on which [int] raises
    [ValueError], or a [KeyboardInterrupt] at the prompt.  When the
    entries run out [input] raises [EOFError], which the script does not
    catch: the loop then returns [true] beside what was written, and
    [false] when it ends by its condition or by [break]. *)
Fixpoint play_loop (ins : list (option Z)) : M (list io * bool) :=
  over ← is_game_over;
  if (over : bool) then ret ([], false)
  else
    b ← get_board;
    shown ← print_board b;
    p ← self_current_player;
    emit (shown ++ [Print ("Player " ++ p ++ "'s turn")%string;
                    Prompt "Enter row (0-2): "])%list
      match ins with
      | [] => ret ([], true)
      | None :: _ => ret ([Print (nl ++ "Game ended.")%string], false)
      | Some row :: ins1 =>
          emit [Prompt "Enter column (0-2): "]
            match ins1 with
            | [] => ret ([], true)
            | None :: _ => ret ([Print (nl ++ "Game ended.")%string], false)
            | Some col :: ins2 =>
                ok ← make_move row col;
                if (ok : bool) then
                  winner ← check_winner;
                  if truthy winner then
                    b ← get_board;
                    shown ← print_board b;
                    ret ((shown ++ [Print ("Player " ++ default "" winner
                                           ++ " wins!")%string])%list,
                         false)
                  else play_loop ins2
                else
                  emit [Print "Invalid move! Try again."] (play_loop ins2)
            end
      end.

(** The body of the loop from the reading of the two entries on, as
    [play_loop] has it; the proofs unfold the loop one round at a time
    with it. *)
Definition after_prompt (ins : list (option Z)) : M (list io * bool) :=
  match ins with
  | [] => ret ([], true)
  | None :: _ => ret ([Print (nl ++ "Game ended.")%string], false)
  | Some row :: ins1 =>
      emit [Prompt "Enter column (0-2): "]
        match ins1 with
        | [] => ret ([], true)
        | None :: _ => ret ([Print (nl ++ "Game ended.")%string], false)
        | Some col :: ins2 =>
            ok ← make_move row col;
            if (ok : bool) then
              winner ← check_winner;
              if truthy winner then
                b ← get_board;
                shown ← print_board b;
                ret ((shown ++ [Print ("Player " ++ default "" winner
                                       ++ " wins!")%string])%list,
                     false)
              else play_loop ins2
            else
              emit [Print "Invalid move! Try again."] (play_loop ins2)
        end
  end.

(** The script, run in the store [h] on the entries [ins]. *)
Definition main (h : gmap loc obj) (ins : list (option Z))
  : res ((list io * bool) * state) :=
  match init h with
  | Raise e => Raise e
  | Ok (_, s) =>
      emit [Print "Tic-Tac-Toe Game"; Print "Player X starts"]
        (r ← play_loop ins;
         if (r.2 : bool) then ret r
         else
           full ← is_board_full;
           if (full : bool) then
             winner ← check_winner;
             if truthy winner then ret r
             else
               b ← get_board;
               shown ← print_board b;
               ret ((r.1 ++ shown ++ [Print "It's a tie!"])%list, false)
           else ret r) s
  end.

(** ** Observations of the console program *)

(** The lines [print_board] prints for a board value. *)
Fixpoint rows_text (i : nat) (g : list (list string)) : list io :=
  match g with
  | [] => []
  | cs :: rest =>
      (Print (" " ++ String.concat " | " cs)%string
       :: (if (i <? 2)%nat then [Print "-----------"] else [])
       ++ rows_text (S i) rest)%list
  end.

Definition board_text (g : list (list string)) : list io :=
  (Print nl :: rows_text 0 g ++ [Print nl])%list.

(** How many cells of a board hold a mark. *)
Definition marks (g : list (list string)) : nat :=
  (count_mark "X" g + count_mark "O" g)%nat.

(** How a run of the script ends: the entries ran out ([EOFError]); an
    entry that is no number ended it; a player won; the board filled up
    with no winner.  [tied] is what the last case says of the output. *)
Definition ends (tied : list io → Prop) (out : list io) (eof : bool)
    (s : state) : Prop :=
  eof = true
  ∨ (eof = false
     ∧ last out = Some (Print (nl ++ "Game ended.")%string)
     ∧ is_game_over s = Ok (false, s))
  ∨ (eof = false
     ∧ ∃ w, last out = Some (Print ("Player " ++ w ++ " wins!")%string)
            ∧ check_winner s = Ok (Some w, s)
            ∧ w = other (current_player s)
            ∧ ∀ g l m, grid s = Some g → l ∈ lines → line_wins g l m →
                m = w)
  ∨ (eof = false
     ∧ tied out
     ∧ check_winner s = Ok (None, s)
     ∧ is_board_full s = Ok (true, s)).

Definition ending : list io → bool → state → Prop :=
  ends (λ out, last out = Some (Print "It's a tie!")).

(** * Proofs *)

(** ** Running a computation *)

Lemma bind_Ok {A B} (m : M A) (k : A → M B) s a s' :
  m s = Ok (a, s') → (m ≫= k) s = k a s'.
Proof. intros H. unfold mbind, M_bind, bind. by rewrite H. Qed.

Lemma py_index_nat {A} (xs : list A) (n : nat) :
  (n < length xs)%nat → py_index xs (Z.of_nat n) = Some n.
Proof.
  intros Hn. unfold py_index.
  replace ((0 <=? Z.of_nat n) && (Z.of_nat n <? Z.of_nat (length xs)))
    with true by (symmetry; apply andb_true_iff; lia).
  by rewrite Nat2Z.id.
Qed.

Lemma rows_of_run s b rs :
  store s !! b = Some (ORows rs) → rows_of b s = Ok (rs, s).
Proof. intros H. unfold rows_of. by rewrite H. Qed.

Lemma cells_of_run s r cs :
  store s !! r = Some (OCells cs) → cells_of r s = Ok (cs, s).
Proof. intros H. unfold cells_of. by rewrite H. Qed.

Lemma getitem_rows_run s b rs (n : nat) r :
  store s !! b = Some (ORows rs) → rs !! n = Some r →
  getitem_rows b (Z.of_nat n) s = Ok (r, s).
Proof.
  intros Hb Hn. unfold getitem_rows.
  rewrite (bind_Ok _ _ _ _ _ (rows_of_run _ _ _ Hb)).
  rewrite py_index_nat by (by eapply lookup_lt_Some). simpl. by rewrite Hn.
Qed.

Lemma getitem_cells_run s r cs (n : nat) v :
  store s !! r = Some (OCells cs) → cs !! n = Some v →
  getitem_cells r (Z.of_nat n) s = Ok (v, s).
Proof.
  intros Hr Hn. unfold getitem_cells.
  rewrite (bind_Ok _ _ _ _ _ (cells_of_run _ _ _ Hr)).
  rewrite py_index_nat by (by eapply lookup_lt_Some). simpl. by rewrite Hn.
Qed.

Lemma setitem_cells_run s r cs (n : nat) v :
  store s !! r = Some (OCells cs) → (n < length cs)%nat →
  setitem_cells r (Z.of_nat n) v s =
    Ok (tt, State (<[r := OCells (<[n := v]> cs)]> (store s))
                  (board s) (current_player s)).
Proof.
  intros Hr Hn. unfold setitem_cells.
  rewrite (bind_Ok _ _ _ _ _ (cells_of_run _ _ _ Hr)).
  by rewrite py_index_nat.
Qed.

Lemma board_item_run s rs (i j : nat) r cs v :
  store s !! board s = Some (ORows rs) → rs !! i = Some r →
  store s !! r = Some (OCells cs) → cs !! j = Some v →
  board_item (Z.of_nat i) (Z.of_nat j) s = Ok (v, s).
Proof.
  intros Hb Hi Hr Hj. unfold board_item.
  rewrite (bind_Ok self_board _ s (board s) s eq_refl).
  rewrite (bind_Ok _ _ _ _ _ (getitem_rows_run _ _ _ _ _ Hb Hi)).
  by eapply getitem_cells_run.
Qed.

Lemma alloc_run o s :
  ∃ l, alloc o s = Ok (l, State (<[l := o]> (store s)) (board s)
                                (current_player s))
       ∧ store s !! l = None.
Proof.
  exists (fresh (dom (store s))). split; [done|].
  apply not_elem_of_dom, is_fresh.
Qed.

(** ** Game states *)

Lemma is_cell_cases v : is_cell v = true ↔ v = " " ∨ v = "X" ∨ v = "O".
Proof.
  unfold is_cell. rewrite !orb_true_iff, !String.eqb_eq. tauto.
Qed.

Lemma is_mark_cases v : is_mark v = true ↔ v = "X" ∨ v = "O".
Proof. unfold is_mark. by rewrite orb_true_iff, !String.eqb_eq. Qed.

Lemma is_mark_other p : is_mark p = true → is_mark (other p) = true.
Proof. intros [-> | ->]%is_mark_cases; done. Qed.

Lemma is_mark_is_cell p : is_mark p = true → is_cell p = true.
Proof. intros [-> | ->]%is_mark_cases; done. Qed.

(** The store of a game state, spelled out. *)
Record layout (s : state) (r0 r1 r2 : loc)
    (a0 a1 a2 b0 b1 b2 c0 c1 c2 : string) : Prop := Layout {
  lay_board : store s !! board s = Some (ORows [r0; r1; r2]);
  lay_row0 : store s !! r0 = Some (OCells [a0; a1; a2]);
  lay_row1 : store s !! r1 = Some (OCells [b0; b1; b2]);
  lay_row2 : store s !! r2 = Some (OCells [c0; c1; c2]);
  lay_ne01 : r0 ≠ r1;
  lay_ne02 : r0 ≠ r2;
  lay_ne12 : r1 ≠ r2;
  lay_cells : Forall (λ v, is_cell v = true)
                [a0; a1; a2; b0; b1; b2; c0; c1; c2];
  lay_mark : is_mark (current_player s) = true
}.

Lemma row_ok_inv h r :
  row_ok h r = true →
  ∃ a b c, h !! r = Some (OCells [a; b; c])
           ∧ Forall (λ v, is_cell v = true) [a; b; c].
Proof.
  unfold row_ok. destruct (h !! r) as [[|[|a [|b [|c [|]]]]]|]; try done.
  rewrite !andb_true_iff. intros [[? ?] ?]. exists a, b, c.
  split; [done|]. by repeat constructor.
Qed.

Lemma wf_layout s :
  wf s = true →
  ∃ r0 r1 r2 a0 a1 a2 b0 b1 b2 c0 c1 c2,
    layout s r0 r1 r2 a0 a1 a2 b0 b1 b2 c0 c1 c2.
Proof.
  unfold wf.
  destruct (store s !! board s) as [[[|r0 [|r1 [|r2 [|]]]]|]|] eqn:Hb;
    try done.
  rewrite !andb_true_iff, !bool_decide_eq_true.
  intros [[[[[[H0 H1] H2] ?] ?] ?] ?].
  apply row_ok_inv in H0 as (a0 & a1 & a2 & ? & Ha).
  apply row_ok_inv in H1 as (b0 & b1 & b2 & ? & Hb1).
  apply row_ok_inv in H2 as (c0 & c1 & c2 & ? & Hc).
  exists r0, r1, r2, a0, a1, a2, b0, b1, b2, c0, c1, c2.
  split; try done.
  apply (Forall_app_2 _ _ _ Ha), (Forall_app_2 _ _ _ Hb1 Hc).
Qed.

Lemma layout_wf s r0 r1 r2 a0 a1 a2 b0 b1 b2 c0 c1 c2 :
  layout s r0 r1 r2 a0 a1 a2 b0 b1 b2 c0 c1 c2 → wf s = true.
Proof.
  intros [Hb H0 H1 H2 ? ? ? Hc ?]. unfold wf, row_ok.
  rewrite Hb, H0, H1, H2.
  rewrite !Forall_cons in Hc. destruct Hc as (?&?&?&?&?&?&?&?&?&_).
  rewrite !andb_true_iff, !bool_decide_eq_true. done.
Qed.

Lemma layout_grid s r0 r1 r2 a0 a1 a2 b0 b1 b2 c0 c1 c2 :
  layout s r0 r1 r2 a0 a1 a2 b0 b1 b2 c0 c1 c2 →
  grid s = Some [[a0; a1; a2]; [b0; b1; b2]; [c0; c1; c2]].
Proof.
  intros [Hb H0 H1 H2 _ _ _ _ _]. unfold grid, deep. rewrite Hb.
  simpl. unfold row_value. by rewrite H0, H1, H2.
Qed.

(** ** [make_move] *)

Ltac step H := rewrite (bind_Ok _ _ _ _ _ H).

Lemma in_range_true (i j : nat) :
  (i < 3)%nat → (j < 3)%nat →
  ((0 <=? Z.of_nat i) && (Z.of_nat i <? 3))
  && ((0 <=? Z.of_nat j) && (Z.of_nat j <? 3)) = true.
Proof. intros. rewrite !andb_true_iff. lia. Qed.

Lemma make_move_out_of_range s row col :
  ¬ (0 ≤ row < 3 ∧ 0 ≤ col < 3) → make_move row col s = Ok (false, s).
Proof.
  intros H. unfold make_move.
  destruct (((0 <=? row) && (row <? 3)) && ((0 <=? col) && (col <? 3)))
    eqn:E; [|done].
  rewrite !andb_true_iff in E. lia.
Qed.

Lemma make_move_occupied s rs (i j : nat) r cs v :
  (i < 3)%nat → (j < 3)%nat →
  store s !! board s = Some (ORows rs) → rs !! i = Some r →
  store s !! r = Some (OCells cs) → cs !! j = Some v → v ≠ " " →
  make_move (Z.of_nat i) (Z.of_nat j) s = Ok (false, s).
Proof.
  intros Hi Hj Hb Hr Hc Hv Hne. unfold make_move.
  rewrite in_range_true by done. simpl.
  step (eq_refl : self_board s = Ok (board s, s)).
  step (getitem_rows_run _ _ _ _ _ Hb Hr).
  step (getitem_cells_run _ _ _ _ _ Hc Hv).
  by apply String.eqb_neq in Hne as ->.
Qed.

Lemma make_move_empty s rs (i j : nat) r cs :
  (i < 3)%nat → (j < 3)%nat →
  store s !! board s = Some (ORows rs) → rs !! i = Some r →
  store s !! r = Some (OCells cs) → cs !! j = Some " " →
  make_move (Z.of_nat i) (Z.of_nat j) s =
    Ok (true, State (<[r := OCells (<[j := current_player s]> cs)]> (store s))
                    (board s) (other (current_player s))).
Proof.
  intros Hi Hj Hb Hr Hc Hv. unfold make_move.
  rewrite in_range_true by done. simpl.
  step (eq_refl : self_board s = Ok (board s, s)).
  step (getitem_rows_run _ _ _ _ _ Hb Hr).
  step (getitem_cells_run _ _ _ _ _ Hc Hv). simpl.
  step (eq_refl : self_current_player s = Ok (current_player s, s)).
  step (eq_refl : self_board s = Ok (board s, s)).
  step (getitem_rows_run _ _ _ _ _ Hb Hr).
  step (setitem_cells_run _ _ _ j (current_player s) Hc
          (lookup_lt_Some _ _ _ Hv)).
  done.
Qed.

Lemma layout_board_ne s r0 r1 r2 a0 a1 a2 b0 b1 b2 c0 c1 c2 :
  layout s r0 r1 r2 a0 a1 a2 b0 b1 b2 c0 c1 c2 →
  board s ≠ r0 ∧ board s ≠ r1 ∧ board s ≠ r2.
Proof.
  intros [Hb H0 H1 H2 _ _ _ _ _].
  repeat split; intros E; rewrite E in Hb; congruence.
Qed.

Lemma make_move_layout s r0 r1 r2 a0 a1 a2 b0 b1 b2 c0 c1 c2 (i j : nat) :
  layout s r0 r1 r2 a0 a1 a2 b0 b1 b2 c0 c1 c2 →
  (i < 3)%nat → (j < 3)%nat →
  at_ [[a0; a1; a2]; [b0; b1; b2]; [c0; c1; c2]] (i, j) = Some " " →
  ∃ s' a0' a1' a2' b0' b1' b2' c0' c1' c2',
    make_move (Z.of_nat i) (Z.of_nat j) s = Ok (true, s')
    ∧ layout s' r0 r1 r2 a0' a1' a2' b0' b1' b2' c0' c1' c2'
    ∧ [[a0'; a1'; a2']; [b0'; b1'; b2']; [c0'; c1'; c2']]
      = place [[a0; a1; a2]; [b0; b1; b2]; [c0; c1; c2]] i j
          (current_player s)
    ∧ current_player s' = other (current_player s)
    ∧ board s' = board s.
Proof.
  intros L Hi Hj Hat.
  destruct (layout_board_ne _ _ _ _ _ _ _ _ _ _ _ _ _ L) as (?&?&?).
  pose proof (is_mark_is_cell _ (lay_mark _ _ _ _ _ _ _ _ _ _ _ _ _ L)).
  destruct L as [Hb Hr0 Hr1 Hr2 ? ? ? Hc Hm].
  rewrite !Forall_cons in Hc. destruct Hc as (?&?&?&?&?&?&?&?&?&_).
  unfold at_ in Hat.
  destruct i as [|[|[|]]]; [| | |lia];
    (destruct j as [|[|[|]]]; [| | |lia]); simpl in Hat;
    eexists _, _, _, _, _, _, _, _, _, _;
    (split;
     [by eapply make_move_empty; [lia|lia|exact Hb|reflexivity|eassumption|]
     |]);
    (split; [|by split; [reflexivity|]]);
    split; simpl; rewrite ?lookup_insert_eq, ?lookup_insert_ne by done;
    try done; try (by apply is_mark_other); by repeat constructor.
Qed.

(** ** [check_winner] *)

Lemma chain3_run (a b c : M string) s x y z :
  a s = Ok (x, s) → b s = Ok (y, s) → c s = Ok (z, s) →
  chain3 a b c s = Ok (wins3 x y z, s).
Proof.
  intros Ha Hb Hc. unfold chain3, wins3. step Ha. step Hb.
  destruct (String.eqb x y); simpl; [|done]. step Hc.
  by destruct (String.eqb y z).
Qed.

Lemma line_winner_wins3 g i1 j1 i2 j2 i3 j3 x y z :
  at_ g (i1, j1) = Some x → at_ g (i2, j2) = Some y →
  at_ g (i3, j3) = Some z →
  line_winner g [(i1, j1); (i2, j2); (i3, j3)]
  = if wins3 x y z then Some x else None.
Proof.
  intros H1 H2 H3. unfold line_winner. simpl. by rewrite H1, H2, H3.
Qed.

Section layout_reads.
Context (s : state) (r0 r1 r2 : loc)
        (a0 a1 a2 b0 b1 b2 c0 c1 c2 : string).
Hypothesis L : layout s r0 r1 r2 a0 a1 a2 b0 b1 b2 c0 c1 c2.

Let g := [[a0; a1; a2]; [b0; b1; b2]; [c0; c1; c2]].

(** [row[j]] and [self.board[i][j]] read the cell and change nothing. *)
Lemma layout_reads :
  getitem_cells r0 0 s = Ok (a0, s) ∧
  getitem_cells r0 1 s = Ok (a1, s) ∧
  getitem_cells r0 2 s = Ok (a2, s) ∧
  getitem_cells r1 0 s = Ok (b0, s) ∧
  getitem_cells r1 1 s = Ok (b1, s) ∧
  getitem_cells r1 2 s = Ok (b2, s) ∧
  getitem_cells r2 0 s = Ok (c0, s) ∧
  getitem_cells r2 1 s = Ok (c1, s) ∧
  getitem_cells r2 2 s = Ok (c2, s) ∧
  board_item 0 0 s = Ok (a0, s) ∧
  board_item 0 1 s = Ok (a1, s) ∧
  board_item 0 2 s = Ok (a2, s) ∧
  board_item 1 0 s = Ok (b0, s) ∧
  board_item 1 1 s = Ok (b1, s) ∧
  board_item 1 2 s = Ok (b2, s) ∧
  board_item 2 0 s = Ok (c0, s) ∧
  board_item 2 1 s = Ok (c1, s) ∧
  board_item 2 2 s = Ok (c2, s).
Proof.
  destruct L as [Hb H0 H1 H2 _ _ _ _ _].
  repeat split.
  - by apply (getitem_cells_run s _ _ 0%nat _ H0).
  - by apply (getitem_cells_run s _ _ 1%nat _ H0).
  - by apply (getitem_cells_run s _ _ 2%nat _ H0).
  - by apply (getitem_cells_run s _ _ 0%nat _ H1).
  - by apply (getitem_cells_run s _ _ 1%nat _ H1).
  - by apply (getitem_cells_run s _ _ 2%nat _ H1).
  - by apply (getitem_cells_run s _ _ 0%nat _ H2).
  - by apply (getitem_cells_run s _ _ 1%nat _ H2).
  - by apply (getitem_cells_run s _ _ 2%nat _ H2).
  - by apply (board_item_run s _ 0%nat 0%nat _ _ _ Hb eq_refl H0).
  - by apply (board_item_run s _ 0%nat 1%nat _ _ _ Hb eq_refl H0).
  - by apply (board_item_run s _ 0%nat 2%nat _ _ _ Hb eq_refl H0).
  - by apply (board_item_run s _ 1%nat 0%nat _ _ _ Hb eq_refl H1).
  - by apply (board_item_run s _ 1%nat 1%nat _ _ _ Hb eq_refl H1).
  - by apply (board_item_run s _ 1%nat 2%nat _ _ _ Hb eq_refl H1).
  - by apply (board_item_run s _ 2%nat 0%nat _ _ _ Hb eq_refl H2).
  - by apply (board_item_run s _ 2%nat 1%nat _ _ _ Hb eq_refl H2).
  - by apply (board_item_run s _ 2%nat 2%nat _ _ _ Hb eq_refl H2).
Qed.

Lemma check_rows_layout :
  check_rows [r0; r1; r2] s = Ok (first_winner g (take 3 lines), s).
Proof.
  destruct layout_reads as
    (R00 & R01 & R02 & R10 & R11 & R12 & R20 & R21 & R22 & _).
  unfold check_rows, lines, first_winner, take.
  step (chain3_run _ _ _ s _ _ _ R00 R01 R02).
  rewrite (line_winner_wins3 g _ _ _ _ _ _ a0 a1 a2) by done.
  destruct (wins3 a0 a1 a2); [by step R00|].
  step (chain3_run _ _ _ s _ _ _ R10 R11 R12).
  rewrite (line_winner_wins3 g _ _ _ _ _ _ b0 b1 b2) by done.
  destruct (wins3 b0 b1 b2); [by step R10|].
  step (chain3_run _ _ _ s _ _ _ R20 R21 R22).
  rewrite (line_winner_wins3 g _ _ _ _ _ _ c0 c1 c2) by done.
  destruct (wins3 c0 c1 c2); [by step R20|].
  done.
Qed.

Lemma check_cols_layout :
  check_cols [0; 1; 2] s
  = Ok (first_winner g (take 3 (drop 3 lines)), s).
Proof.
  destruct layout_reads as
    (_ & _ & _ & _ & _ & _ & _ & _ & _ &
     B00 & B01 & B02 & B10 & B11 & B12 & B20 & B21 & B22).
  unfold check_cols, lines, first_winner, take, drop.
  step (chain3_run _ _ _ s _ _ _ B00 B10 B20).
  rewrite (line_winner_wins3 g _ _ _ _ _ _ a0 b0 c0) by done.
  destruct (wins3 a0 b0 c0); [by step B00|].
  step (chain3_run _ _ _ s _ _ _ B01 B11 B21).
  rewrite (line_winner_wins3 g _ _ _ _ _ _ a1 b1 c1) by done.
  destruct (wins3 a1 b1 c1); [by step B01|].
  step (chain3_run _ _ _ s _ _ _ B02 B12 B22).
  rewrite (line_winner_wins3 g _ _ _ _ _ _ a2 b2 c2) by done.
  destruct (wins3 a2 b2 c2); [by step B02|].
  done.
Qed.

Lemma check_winner_layout :
  check_winner s = Ok (first_winner g lines, s).
Proof.
  destruct layout_reads as
    (_ & _ & _ & _ & _ & _ & _ & _ & _ &
     B00 & B01 & B02 & B10 & B11 & B12 & B20 & B21 & B22).
  unfold check_winner.
  step (eq_refl : self_board s = Ok (board s, s)).
  step (rows_of_run _ _ _ (lay_board _ _ _ _ _ _ _ _ _ _ _ _ _ L)).
  step check_rows_layout.
  unfold lines, first_winner, take, drop.
  destruct (line_winner g [(0, 0); (0, 1); (0, 2)]%nat); [done|].
  destruct (line_winner g [(1, 0); (1, 1); (1, 2)]%nat); [done|].
  destruct (line_winner g [(2, 0); (2, 1); (2, 2)]%nat); [done|].
  step check_cols_layout.
  unfold lines, first_winner, take, drop.
  destruct (line_winner g [(0, 0); (1, 0); (2, 0)]%nat); [done|].
  destruct (line_winner g [(0, 1); (1, 1); (2, 1)]%nat); [done|].
  destruct (line_winner g [(0, 2); (1, 2); (2, 2)]%nat); [done|].
  step (chain3_run _ _ _ s _ _ _ B00 B11 B22).
  rewrite (line_winner_wins3 g _ _ _ _ _ _ a0 b1 c2) by done.
  destruct (wins3 a0 b1 c2); [by step B00|].
  step (chain3_run _ _ _ s _ _ _ B02 B11 B20).
  rewrite (line_winner_wins3 g _ _ _ _ _ _ a2 b1 c0) by done.
  destruct (wins3 a2 b1 c0); [by step B02|].
  done.
Qed.
End layout_reads.

(** ** [is_board_full] and [is_game_over] *)

Lemma no_blank_spec g :
  no_blank g = true ↔ ∀ i j v, at_ g (i, j) = Some v → v ≠ " ".
Proof.
  unfold no_blank. rewrite forallb_forall. split.
  - intros H i j v Hv. unfold at_ in Hv. simpl in Hv.
    destruct (g !! i) as [row|] eqn:Hrow; [|done]. simpl in Hv.
    assert (In row g) as Hin%H.
    { apply list_elem_of_In. by eapply list_elem_of_lookup_2. }
    intros ->. apply negb_true_iff in Hin.
    assert (existsb (String.eqb " ") row = true); [|congruence].
    apply existsb_exists. exists " ". split; [|by apply String.eqb_eq].
    apply list_elem_of_In. by eapply list_elem_of_lookup_2.
  - intros H row [i Hi]%list_elem_of_In%list_elem_of_lookup_1.
    apply negb_true_iff, not_true_iff_false.
    intros (v & [j Hj]%list_elem_of_In%list_elem_of_lookup_1
              & Hv%String.eqb_eq)%existsb_exists.
    apply (H i j v); [|done]. unfold at_. simpl. by rewrite Hi.
Qed.

Section layout_queries.
Context (s : state) (r0 r1 r2 : loc)
        (a0 a1 a2 b0 b1 b2 c0 c1 c2 : string).
Hypothesis L : layout s r0 r1 r2 a0 a1 a2 b0 b1 b2 c0 c1 c2.

Let g := [[a0; a1; a2]; [b0; b1; b2]; [c0; c1; c2]].

Lemma is_board_full_layout : is_board_full s = Ok (no_blank g, s).
Proof.
  destruct L as [Hb H0 H1 H2 _ _ _ _ _].
  unfold is_board_full.
  step (eq_refl : self_board s = Ok (board s, s)).
  step (rows_of_run _ _ _ Hb).
  unfold full_rows, no_blank, g, forallb.
  step (cells_of_run _ _ _ H0).
  destruct (existsb (String.eqb " ") [a0; a1; a2]); [done|].
  step (cells_of_run _ _ _ H1).
  destruct (existsb (String.eqb " ") [b0; b1; b2]); [done|].
  step (cells_of_run _ _ _ H2).
  by destruct (existsb (String.eqb " ") [c0; c1; c2]).
Qed.

Lemma is_game_over_layout :
  is_game_over s
  = Ok (bool_decide (is_Some (first_winner g lines)) || no_blank g, s).
Proof.
  unfold is_game_over.
  step (check_winner_layout _ _ _ _ _ _ _ _ _ _ _ _ _ L). fold g.
  destruct (first_winner g lines); [done|].
  by rewrite is_board_full_layout.
Qed.
End layout_queries.

(** ** [__init__] and [reset] *)

Lemma blank_rows_run n : ∀ s,
  ∃ rs h,
    blank_rows n s = Ok (rs, State h (board s) (current_player s))
    ∧ store s ⊆ h
    ∧ length rs = n
    ∧ NoDup rs
    ∧ ∀ r, r ∈ rs →
        store s !! r = None ∧ h !! r = Some (OCells [" "; " "; " "]).
Proof.
  induction n as [|n IH]; intros s.
  { exists [], (store s). destruct s. repeat split; try done.
    - constructor.
    - by apply elem_of_nil in H.
    - by apply elem_of_nil in H. }
  destruct (alloc_run (OCells (replicate 3 " ")) s) as (r0 & E0 & F0).
  set (s0 := State _ _ _) in E0.
  destruct (IH s0) as (rs & h & E & Hsub & Hlen & Hnd & Hrs).
  exists (r0 :: rs), h. simpl. step E0. step E. simpl.
  assert (store s ⊆ store s0) by (by apply insert_subseteq).
  split; [done|]. split; [by etrans|]. split; [by rewrite Hlen|].
  split.
  { constructor; [|done]. intros [Hn _]%Hrs.
    simpl in Hn. by rewrite lookup_insert_eq in Hn. }
  intros r [->|Hr]%elem_of_cons.
  - split; [done|]. eapply lookup_weaken; [|done].
    simpl. by rewrite lookup_insert_eq.
  - destruct (Hrs r Hr) as [Hn ?]. split; [|done].
    by eapply lookup_weaken_None.
Qed.

Lemma blank_board_run s :
  ∃ b r0 r1 r2 h,
    blank_board s = Ok (b, State h (board s) (current_player s))
    ∧ store s ⊆ h
    ∧ store s !! b = None
    ∧ ∀ p, is_mark p = true →
        layout (State h b p) r0 r1 r2 " " " " " " " " " " " " " " " " " ".
Proof.
  unfold blank_board.
  destruct (blank_rows_run 3 s) as (rs & h & E & Hsub & Hlen & Hnd & Hrs).
  destruct rs as [|r0 [|r1 [|r2 [|]]]]; try done.
  step E. set (s1 := State _ _ _).
  destruct (alloc_run (ORows [r0; r1; r2]) s1) as (b & Eb & Fb).
  rewrite Eb. simpl in *.
  destruct (Hrs r0) as [_ H0]; [by left|].
  destruct (Hrs r1) as [_ H1]; [by right; left|].
  destruct (Hrs r2) as [_ H2]; [by right; right; left|].
  apply NoDup_cons in Hnd as [N0 Hnd].
  apply NoDup_cons in Hnd as [N1 _].
  apply not_elem_of_cons in N0 as [? [? _]%not_elem_of_cons].
  apply not_elem_of_cons in N1 as [? _]. clear E Eb Hrs.
  exists b, r0, r1, r2. eexists. split; [done|].
  split; [etrans; [done|by apply insert_subseteq]|].
  split; [by eapply lookup_weaken_None|].
  intros p Hp.
  assert (b ≠ r0 ∧ b ≠ r1 ∧ b ≠ r2) as (?&?&?)
    by (repeat split; intros ->; congruence).
  split; simpl; simplify_map_eq; try done.
  by repeat constructor.
Qed.

Lemma init_run h0 :
  ∃ b r0 r1 r2 h,
    init h0 = Ok (tt, State h b "X")
    ∧ h0 ⊆ h
    ∧ layout (State h b "X") r0 r1 r2 " " " " " " " " " " " " " " " " " ".
Proof.
  unfold init. set (s := State h0 _ _).
  destruct (blank_board_run s) as (b & r0 & r1 & r2 & h & E & Hsub & _ & L).
  exists b, r0, r1, r2, h. step E. split; [done|]. split; [done|].
  by apply L.
Qed.

Lemma reset_run s :
  ∃ b r0 r1 r2 h,
    reset s = Ok (tt, State h b "X")
    ∧ store s ⊆ h
    ∧ layout (State h b "X") r0 r1 r2 " " " " " " " " " " " " " " " " " ".
Proof.
  unfold reset.
  destruct (blank_board_run s) as (b & r0 & r1 & r2 & h & E & Hsub & _ & L).
  exists b, r0, r1, r2, h. step E. split; [done|]. split; [done|].
  by apply L.
Qed.

(** ** [get_board] *)

Lemma copy_rows_run rows : ∀ s g,
  Forall2 (λ r cs, store s !! r = Some (OCells cs)) rows g →
  ∃ rs h,
    copy_rows rows s = Ok (rs, State h (board s) (current_player s))
    ∧ store s ⊆ h
    ∧ NoDup rs
    ∧ Forall2 (λ r cs, h !! r = Some (OCells cs)) rs g
    ∧ ∀ r, r ∈ rs → store s !! r = None.
Proof.
  induction rows as [|row rest IH]; intros s g Hg.
  { apply Forall2_nil_inv_l in Hg as ->. exists [], (store s).
    destruct s. repeat split; try done; [constructor|].
    by intros r ?%elem_of_nil. }
  apply Forall2_cons_inv_l in Hg as (cs & g' & Hrow & Hrest & ->).
  destruct (alloc_run (OCells cs) s) as (r0 & E0 & F0).
  set (s0 := State _ _ _) in E0.
  assert (store s ⊆ store s0) as Hsub0 by (by apply insert_subseteq).
  destruct (IH s0 g') as (rs & h & E & Hsub & Hnd & Hval & Hfresh).
  { eapply Forall2_impl; [exact Hrest|]. intros r cs' Hr.
    simpl in Hr. exact (lookup_weaken _ _ _ _ Hr Hsub0). }
  exists (r0 :: rs), h. simpl.
  step (cells_of_run _ _ _ Hrow). step E0. step E. simpl.
  split; [done|]. split; [by etrans|]. split.
  { constructor; [|done]. intros Hn%Hfresh.
    simpl in Hn. by rewrite lookup_insert_eq in Hn. }
  split.
  { constructor; [|done]. eapply lookup_weaken; [|done].
    simpl. by rewrite lookup_insert_eq. }
  intros r [->|Hr]%elem_of_cons; [done|].
  eapply lookup_weaken_None; [|done]. by apply Hfresh.
Qed.

Lemma deep_Some h b rs g :
  h !! b = Some (ORows rs) →
  Forall2 (λ r cs, h !! r = Some (OCells cs)) rs g →
  deep h b = Some g.
Proof.
  intros Hb Hg. unfold deep. rewrite Hb. apply mapM_Some.
  eapply Forall2_impl; [done|]. intros r cs Hr. unfold row_value.
  by rewrite Hr.
Qed.

Lemma layout_weaken s s' r0 r1 r2 a0 a1 a2 b0 b1 b2 c0 c1 c2 :
  layout s r0 r1 r2 a0 a1 a2 b0 b1 b2 c0 c1 c2 →
  (∀ l, is_Some (store s !! l) → store s' !! l = store s !! l) →
  board s' = board s → current_player s' = current_player s →
  layout s' r0 r1 r2 a0 a1 a2 b0 b1 b2 c0 c1 c2.
Proof.
  intros [Hb H0 H1 H2 ? ? ? ? ?] Hsame Eb Ep.
  split; try done; rewrite ?Eb, ?Ep; try done;
    rewrite Hsame; done.
Qed.

Lemma get_board_layout s r0 r1 r2 a0 a1 a2 b0 b1 b2 c0 c1 c2 :
  layout s r0 r1 r2 a0 a1 a2 b0 b1 b2 c0 c1 c2 →
  ∃ b h,
    get_board s = Ok (b, State h (board s) (current_player s))
    ∧ store s ⊆ h
    ∧ deep h b = Some [[a0; a1; a2]; [b0; b1; b2]; [c0; c1; c2]]
    ∧ ∀ l, l ∈ owned h b → store s !! l = None.
Proof.
  intros [Hb H0 H1 H2 _ _ _ _ _]. unfold get_board.
  step (eq_refl : self_board s = Ok (board s, s)).
  step (rows_of_run _ _ _ Hb).
  destruct (copy_rows_run [r0; r1; r2] s
              [[a0; a1; a2]; [b0; b1; b2]; [c0; c1; c2]])
    as (rs & h & E & Hsub & Hnd & Hval & Hfresh).
  { by repeat constructor. }
  step E. set (s1 := State _ _ _).
  destruct (alloc_run (ORows rs) s1) as (b & Eb & Fb).
  rewrite Eb. simpl in *. exists b. eexists. split; [done|].
  split; [etrans; [done|by apply insert_subseteq]|].
  split.
  { eapply deep_Some; [by rewrite lookup_insert_eq|].
    eapply Forall2_impl; [done|]. intros r cs Hr. simpl in Hr.
    rewrite lookup_insert_ne; [done|]. intros ->. congruence. }
  unfold owned. rewrite lookup_insert_eq.
  intros l [->|Hl]%elem_of_cons.
  - by eapply lookup_weaken_None.
  - by apply Hfresh.
Qed.

(** ** Writes by a client *)

Lemma foldl_insert_lookup (ws : list (loc * obj)) : ∀ (h : gmap loc obj) l,
  l ∉ ws.*1 →
  foldl (λ h w, <[w.1 := w.2]> h) h ws !! l = h !! l.
Proof.
  induction ws as [|w ws IH]; intros h l Hl; [done|].
  simpl in *. apply not_elem_of_cons in Hl as [? ?].
  rewrite IH by done. by rewrite lookup_insert_ne.
Qed.

Lemma mutate_lookup ws s l :
  l ∉ ws.*1 → store (mutate ws s) !! l = store s !! l.
Proof. apply foldl_insert_lookup. Qed.

(** ** Board values *)

Lemma at_place_eq g i j p v :
  at_ g (i, j) = Some v → at_ (place g i j p) (i, j) = Some p.
Proof.
  unfold at_, place. simpl. rewrite list_lookup_alter_eq.
  destruct (g !! i) as [row|]; [|done]. simpl. intros Hv.
  apply list_lookup_insert_eq. by eapply lookup_lt_Some.
Qed.

Lemma at_place_ne g i j p i' j' :
  (i', j') ≠ (i, j) → at_ (place g i j p) (i', j') = at_ g (i', j').
Proof.
  unfold at_, place. simpl. intros Hne.
  destruct (decide (i' = i)) as [->|Hi].
  - rewrite list_lookup_alter_eq. destruct (g !! i) as [row|]; [|done].
    simpl. apply list_lookup_insert_ne. congruence.
  - by rewrite list_lookup_alter_ne.
Qed.

Lemma cell_layout s r0 r1 r2 a0 a1 a2 b0 b1 b2 c0 c1 c2 i j :
  layout s r0 r1 r2 a0 a1 a2 b0 b1 b2 c0 c1 c2 →
  cell s i j = at_ [[a0; a1; a2]; [b0; b1; b2]; [c0; c1; c2]] (i, j).
Proof.
  intros L. unfold cell.
  by rewrite (layout_grid _ _ _ _ _ _ _ _ _ _ _ _ _ L).
Qed.

(** Inside the board every cell is read through its row object. *)
Lemma layout_cell s r0 r1 r2 a0 a1 a2 b0 b1 b2 c0 c1 c2 (i j : nat) :
  layout s r0 r1 r2 a0 a1 a2 b0 b1 b2 c0 c1 c2 →
  (i < 3)%nat → (j < 3)%nat →
  ∃ r cs v,
    [r0; r1; r2] !! i = Some r ∧ store s !! r = Some (OCells cs)
    ∧ cs !! j = Some v
    ∧ at_ [[a0; a1; a2]; [b0; b1; b2]; [c0; c1; c2]] (i, j) = Some v.
Proof.
  intros [Hb H0 H1 H2 _ _ _ _ _] Hi Hj.
  destruct i as [|[|[|]]]; [| | |lia];
    (destruct j as [|[|[|]]]; [| | |lia]);
    eexists _, _, _; (split; [reflexivity|]);
    (split; [eassumption|]); by split.
Qed.

(** ** Moves on game states *)

Lemma make_move_reject_run s row col :
  wf s = true →
  ¬ (0 ≤ row < 3) ∨ ¬ (0 ≤ col < 3)
  ∨ cell s (Z.to_nat row) (Z.to_nat col) ≠ Some " " →
  make_move row col s = Ok (false, s).
Proof.
  intros (r0&r1&r2&a0&a1&a2&b0&b1&b2&c0&c1&c2&L)%wf_layout Hbad.
  destruct (decide (0 ≤ row < 3 ∧ 0 ≤ col < 3)) as [[Hr Hc]|Hout];
    [|by apply make_move_out_of_range].
  destruct Hbad as [?|[?|Hcell]]; [done|done|].
  destruct (layout_cell _ _ _ _ _ _ _ _ _ _ _ _ _
              (Z.to_nat row) (Z.to_nat col) L)
    as (r & cs & v & Hi & Hrow & Hj & Hat); [lia|lia|].
  rewrite (cell_layout _ _ _ _ _ _ _ _ _ _ _ _ _ _ _ L), Hat in Hcell.
  rewrite <- (Z2Nat.id row), <- (Z2Nat.id col) by lia.
  eapply make_move_occupied; try done; try lia.
  - by destruct L.
  - congruence.
Qed.

Lemma make_move_accept_run s row col :
  wf s = true →
  0 ≤ row < 3 → 0 ≤ col < 3 →
  cell s (Z.to_nat row) (Z.to_nat col) = Some " " →
  ∃ s' g,
    make_move row col s = Ok (true, s')
    ∧ grid s = Some g
    ∧ grid s' = Some (place g (Z.to_nat row) (Z.to_nat col)
                        (current_player s))
    ∧ current_player s' = other (current_player s)
    ∧ board s' = board s
    ∧ wf s' = true.
Proof.
  intros (r0&r1&r2&a0&a1&a2&b0&b1&b2&c0&c1&c2&L)%wf_layout Hr Hc Hcell.
  rewrite (cell_layout _ _ _ _ _ _ _ _ _ _ _ _ _ _ _ L) in Hcell.
  destruct (make_move_layout _ _ _ _ _ _ _ _ _ _ _ _ _
              (Z.to_nat row) (Z.to_nat col) L)
    as (s'&a0'&a1'&a2'&b0'&b1'&b2'&c0'&c1'&c2'&E&L'&Hg&Hp&Hb);
    [lia|lia|done|].
  rewrite !Z2Nat.id in E by lia.
  exists s', [[a0; a1; a2]; [b0; b1; b2]; [c0; c1; c2]].
  split; [done|]. split; [by eapply layout_grid|].
  split; [rewrite <- Hg; by eapply layout_grid|].
  split; [done|]. split; [done|]. by eapply layout_wf.
Qed.

(** What [make_move] does is decided by the coordinates and the target
    cell alone. *)
Lemma make_move_run s row col :
  wf s = true →
  (make_move row col s = Ok (false, s)
   ∧ (¬ (0 ≤ row < 3) ∨ ¬ (0 ≤ col < 3)
      ∨ cell s (Z.to_nat row) (Z.to_nat col) ≠ Some " "))
  ∨ (∃ s', make_move row col s = Ok (true, s')
           ∧ 0 ≤ row < 3 ∧ 0 ≤ col < 3
           ∧ cell s (Z.to_nat row) (Z.to_nat col) = Some " ").
Proof.
  intros Hwf.
  destruct (decide (0 ≤ row < 3)) as [Hr|Hr];
    [|left; split; [apply make_move_reject_run|]; auto].
  destruct (decide (0 ≤ col < 3)) as [Hc|Hc];
    [|left; split; [apply make_move_reject_run|]; auto].
  destruct (decide (cell s (Z.to_nat row) (Z.to_nat col) = Some " "))
    as [He|He]; [|left; split; [apply make_move_reject_run|]; auto].
  destruct (make_move_accept_run s row col Hwf Hr Hc He) as (s' & g & E & _).
  right. by exists s'.
Qed.

Lemma other_ne p : is_mark p = true → other p ≠ p.
Proof. by intros [-> | ->]%is_mark_cases. Qed.

Lemma wf_mark s : wf s = true → is_mark (current_player s) = true.
Proof.
  intros (r0&r1&r2&a0&a1&a2&b0&b1&b2&c0&c1&c2&L)%wf_layout.
  by destruct L.
Qed.

(** The board value of a game state is three rows of three cells. *)
Lemma wf_grid s :
  wf s = true →
  ∃ a0 a1 a2 b0 b1 b2 c0 c1 c2,
    grid s = Some [[a0; a1; a2]; [b0; b1; b2]; [c0; c1; c2]]
    ∧ Forall (λ v, is_cell v = true) [a0; a1; a2; b0; b1; b2; c0; c1; c2].
Proof.
  intros (r0&r1&r2&a0&a1&a2&b0&b1&b2&c0&c1&c2&L)%wf_layout.
  exists a0, a1, a2, b0, b1, b2, c0, c1, c2.
  split; [by eapply layout_grid|by destruct L].
Qed.

Lemma at_3x3 a0 a1 a2 b0 b1 b2 c0 c1 c2 ij v :
  at_ [[a0; a1; a2]; [b0; b1; b2]; [c0; c1; c2]] ij = Some v →
  v ∈ [a0; a1; a2; b0; b1; b2; c0; c1; c2].
Proof.
  destruct ij as [i j]. unfold at_. simpl.
  destruct i as [|[|[|]]]; [| | |done];
    (destruct j as [|[|[|]]]; [| | |done]); simpl; intros [= <-];
    rewrite !elem_of_cons; tauto.
Qed.

Lemma wf_cell s i j v :
  wf s = true → cell s i j = Some v → is_cell v = true.
Proof.
  intros (a0&a1&a2&b0&b1&b2&c0&c1&c2&Hg&Hc)%wf_grid. unfold cell.
  rewrite Hg. simpl. intros Hv%at_3x3.
  by eapply Forall_forall in Hc.
Qed.


(** ** Lines *)

Lemma wins3_true x y z : wins3 x y z = true ↔ x = y ∧ y = z ∧ z ≠ " ".
Proof.
  unfold wins3.
  rewrite !andb_true_iff, negb_true_iff, !String.eqb_eq, String.eqb_neq.
  tauto.
Qed.

Lemma line_winner_Some g l m :
  line_winner g l = Some m → line_wins g l m.
Proof.
  unfold line_winner.
  destruct (mapM (at_ g) l) as [[|a [|b [|c [|]]]]|] eqn:E; try done.
  destruct (wins3 a b c) eqn:W; [|done]. intros [= <-].
  apply wins3_true in W as (-> & -> & ?).
  apply mapM_Some in E. split; [|done].
  apply Forall2_length in E as Hlen.
  destruct l as [|p1 [|p2 [|p3 [|]]]]; try done.
  apply Forall2_cons_1 in E as [? E].
  apply Forall2_cons_1 in E as [? E].
  apply Forall2_cons_1 in E as [? _].
  by repeat constructor.
Qed.

Lemma line_winner_None g l m :
  length l = 3%nat → line_winner g l = None → ¬ line_wins g l m.
Proof.
  intros Hlen Hnone [Hall Hm].
  destruct l as [|p1 [|p2 [|p3 [|]]]]; try done.
  apply Forall_cons in Hall as [H1 Hall].
  apply Forall_cons in Hall as [H2 Hall].
  apply Forall_cons in Hall as [H3 _].
  unfold line_winner in Hnone. simpl in Hnone.
  rewrite H1, H2, H3 in Hnone. simpl in Hnone.
  assert (wins3 m m m = true) as W by (by apply wins3_true).
  by rewrite W in Hnone.
Qed.

Lemma first_winner_spec g ls :
  match first_winner g ls with
  | Some m =>
      ∃ k l, ls !! k = Some l ∧ line_winner g l = Some m
             ∧ ∀ k' l', (k' < k)%nat → ls !! k' = Some l' →
                 line_winner g l' = None
  | None => ∀ l, l ∈ ls → line_winner g l = None
  end.
Proof.
  induction ls as [|l ls IH]; simpl.
  { by intros l ?%elem_of_nil. }
  destruct (line_winner g l) as [m|] eqn:E.
  { exists 0%nat, l. repeat split; try done. intros; lia. }
  destruct (first_winner g ls) as [m|].
  - destruct IH as (k & l0 & Hk & Hw & Hfirst).
    exists (S k), l0. repeat split; try done.
    intros [|k'] l' Hlt Hl'; simpl in Hl'; [congruence|].
    apply (Hfirst k'); [lia|done].
  - intros l' [->|?]%elem_of_cons; [done|by apply IH].
Qed.

Lemma lines_length l : l ∈ lines → length l = 3%nat.
Proof.
  unfold lines. rewrite !elem_of_cons, elem_of_nil.
  intros [->|[->|[->|[->|[->|[->|[->|[->|[]]]]]]]]]; done.
Qed.

(** The winner of a game state is the mark of its first winning line. *)
Lemma check_winner_run s :
  wf s = true →
  ∃ g, grid s = Some g ∧ check_winner s = Ok (first_winner g lines, s).
Proof.
  intros (r0&r1&r2&a0&a1&a2&b0&b1&b2&c0&c1&c2&L)%wf_layout.
  exists [[a0; a1; a2]; [b0; b1; b2]; [c0; c1; c2]].
  split; [by eapply layout_grid|].
  exact (check_winner_layout _ _ _ _ _ _ _ _ _ _ _ _ _ L).
Qed.

Lemma is_board_full_run s :
  wf s = true →
  ∃ g, grid s = Some g ∧ is_board_full s = Ok (no_blank g, s).
Proof.
  intros (r0&r1&r2&a0&a1&a2&b0&b1&b2&c0&c1&c2&L)%wf_layout.
  exists [[a0; a1; a2]; [b0; b1; b2]; [c0; c1; c2]].
  split; [by eapply layout_grid|].
  exact (is_board_full_layout _ _ _ _ _ _ _ _ _ _ _ _ _ L).
Qed.

Lemma is_game_over_run s :
  wf s = true →
  ∃ g, grid s = Some g
       ∧ is_game_over s
         = Ok (bool_decide (is_Some (first_winner g lines)) || no_blank g, s).
Proof.
  intros (r0&r1&r2&a0&a1&a2&b0&b1&b2&c0&c1&c2&L)%wf_layout.
  exists [[a0; a1; a2]; [b0; b1; b2]; [c0; c1; c2]].
  split; [by eapply layout_grid|].
  exact (is_game_over_layout _ _ _ _ _ _ _ _ _ _ _ _ _ L).
Qed.

Lemma no_blank_cells s g :
  grid s = Some g →
  no_blank g = true ↔ ∀ i j, cell s i j ≠ Some " ".
Proof.
  intros Hg. rewrite no_blank_spec. unfold cell. rewrite Hg. simpl.
  split.
  - intros H i j Hc. by apply (H i j " ").
  - intros H i j v Hv ->. by apply (H i j).
Qed.

Lemma get_board_run s :
  wf s = true →
  ∃ b s',
    get_board s = Ok (b, s')
    ∧ store s ⊆ store s'
    ∧ board s' = board s
    ∧ current_player s' = current_player s
    ∧ deep (store s') b = grid s
    ∧ grid s' = grid s
    ∧ wf s' = true
    ∧ ∀ l, l ∈ owned (store s') b → l ∉ dom (store s).
Proof.
  intros (r0&r1&r2&a0&a1&a2&b0&b1&b2&c0&c1&c2&L)%wf_layout.
  destruct (get_board_layout _ _ _ _ _ _ _ _ _ _ _ _ _ L)
    as (b & h & E & Hsub & Hdeep & Hown).
  exists b. eexists. split; [done|]. simpl.
  assert (layout (State h (board s) (current_player s))
            r0 r1 r2 a0 a1 a2 b0 b1 b2 c0 c1 c2) as L'.
  { eapply layout_weaken; [done| |done|done].
    intros l [o Hl]. simpl. rewrite Hl. by eapply lookup_weaken. }
  rewrite (layout_grid _ _ _ _ _ _ _ _ _ _ _ _ _ L).
  rewrite (layout_grid _ _ _ _ _ _ _ _ _ _ _ _ _ L').
  repeat split; try done.
  - by eapply layout_wf.
  - intros l Hl. apply not_elem_of_dom. by apply Hown.
Qed.

(** ** Counting marks *)

Local Arguments holds : simpl never.

Lemma count_place a0 a1 a2 b0 b1 b2 c0 c1 c2 i j p q :
  let g := [[a0; a1; a2]; [b0; b1; b2]; [c0; c1; c2]] in
  at_ g (i, j) = Some " " → q ≠ " " →
  count_mark q (place g i j p) = (count_mark q g + holds q p)%nat.
Proof.
  intros g Hat Hq.
  assert (holds q " " = 0%nat) as Hblank.
  { unfold holds. apply String.eqb_neq in Hq.
    by rewrite String.eqb_sym, Hq. }
  unfold at_ in Hat. subst g.
  destruct i as [|[|[|]]]; [| | |done];
    (destruct j as [|[|[|]]]; [| | |done]); simpl in Hat;
    injection Hat as ->; unfold count_mark, place; simpl;
    rewrite ?Hblank; lia.
Qed.

(** ** Calls *)

(** What one call does to a game state. *)
Lemma do_call_step s c :
  wf s = true →
  ∃ a s',
    do_call c s = Ok (a, s') ∧ wf s' = true
    ∧ match c with
      | MakeMove row col =>
          (a = ABool false ∧ s' = s)
          ∨ (a = ABool true
             ∧ 0 ≤ row < 3 ∧ 0 ≤ col < 3
             ∧ cell s (Z.to_nat row) (Z.to_nat col) = Some " "
             ∧ current_player s' = other (current_player s)
             ∧ ∃ g, grid s = Some g
                    ∧ grid s' = Some (place g (Z.to_nat row) (Z.to_nat col)
                                        (current_player s)))
      | Reset => grid s' = Some blank ∧ current_player s' = "X"
      | GetBoard =>
          grid s' = grid s ∧ current_player s' = current_player s
          ∧ board s' = board s
      | _ => s' = s
      end.
Proof.
  intros Hwf. destruct c as [row col| | | | |]; simpl.
  - assert (∀ H : answer → state → Prop,
              ¬ (0 ≤ row < 3) ∨ ¬ (0 ≤ col < 3)
              ∨ cell s (Z.to_nat row) (Z.to_nat col) ≠ Some " " →
              ∃ a s', (make_move row col ≫= λ b, ret (ABool b)) s
                      = Ok (a, s') ∧ wf s' = true
                      ∧ ((a = ABool false ∧ s' = s) ∨ H a s')) as Hrej.
    { intros H Hbad. exists (ABool false), s.
      step (make_move_reject_run s row col Hwf Hbad).
      split; [done|]. split; [done|]. by left. }
    destruct (decide (0 ≤ row < 3)) as [Hr|Hr];
      [|by apply (Hrej (λ a s', _ ∧ _)); left].
    destruct (decide (0 ≤ col < 3)) as [Hc|Hc];
      [|by apply (Hrej (λ a s', _ ∧ _)); right; left].
    destruct (decide (cell s (Z.to_nat row) (Z.to_nat col) = Some " "))
      as [He|He]; [|by apply (Hrej (λ a s', _ ∧ _)); right; right].
    destruct (make_move_accept_run s row col Hwf Hr Hc He)
      as (s' & g & E & Hg & Hg' & Hp & _ & Hwf').
    exists (ABool true), s'. step E. split; [done|]. split; [done|].
    right. repeat split; try done; try lia. by exists g.
  - destruct (check_winner_run s Hwf) as (g & _ & E).
    exists (AWinner (first_winner g lines)), s. by step E.
  - destruct (is_board_full_run s Hwf) as (g & _ & E).
    exists (ABool (no_blank g)), s. by step E.
  - destruct (is_game_over_run s Hwf) as (g & _ & E).
    eexists (ABool _), s. by step E.
  - destruct (get_board_run s Hwf)
      as (b & s' & E & _ & ? & ? & _ & ? & ? & _).
    exists (ABoard b), s'. by step E.
  - destruct (reset_run s) as (b & r0 & r1 & r2 & h & E & _ & L).
    exists ANone. eexists. step E. split; [done|].
    split; [by eapply layout_wf|].
    split; [|done]. by rewrite (layout_grid _ _ _ _ _ _ _ _ _ _ _ _ _ L).
Qed.

(** Every sequence of calls on a game state runs to its end, and a
    property of game states that each call keeps holds at the end. *)
Lemma run_calls_invariant (I : state → Prop) cs :
  (∀ s c a s', wf s = true → I s → do_call c s = Ok (a, s') → I s') →
  ∀ s, wf s = true → I s →
    ∃ tr s', run_calls cs s = Ok (tr, s') ∧ wf s' = true ∧ I s'.
Proof.
  intros Hkeep. induction cs as [|c cs IH]; intros s Hwf HI.
  { by exists [], s. }
  destruct (do_call_step s c Hwf) as (a & s1 & E & Hwf1 & _).
  destruct (IH s1 Hwf1 (Hkeep _ _ _ _ Hwf HI E)) as (tr & s' & E' & ? & ?).
  eexists (_ :: tr), s'. simpl.
  step (eq_refl : self_current_player s = Ok (current_player s, s)).
  step E.
  step (eq_refl : self_current_player s1 = Ok (current_player s1, s1)).
  step E'. done.
Qed.

(** ** Turns *)

Lemma other_other p : is_mark p = true → other (other p) = p.
Proof. by intros [-> | ->]%is_mark_cases. Qed.

Lemma turns_lookup p n k :
  is_mark p = true → (k < n)%nat →
  turns p n !! k = Some (if Nat.even k then p else other p).
Proof.
  revert p k. induction n as [|n IH]; intros p k Hp Hk; [lia|].
  destruct k as [|k]; [done|]. simpl turns. simpl lookup.
  rewrite IH by (by apply is_mark_other || lia).
  rewrite Nat.even_succ, <- Nat.negb_even.
  destruct (Nat.even k); simpl; [done|]. by rewrite other_other.
Qed.

(** From a game state, a sequence of calls without [reset] runs to its
    end; the calls of [make_move] that return [True] are made by the two
    players in alternation, the player to move first, and no other call
    changes the player to move. *)
Lemma run_calls_turns cs : ∀ s,
  wf s = true → Reset ∉ cs →
  ∃ tr s',
    run_calls cs s = Ok (tr, s') ∧ wf s' = true
    ∧ linked (current_player s) tr (current_player s')
    ∧ Forall turn_step tr
    ∧ ev_before <$> filter (λ e, is_success e = true) tr
      = turns (current_player s)
          (length (filter (λ e, is_success e = true) tr)).
Proof.
  induction cs as [|c cs IH]; intros s Hwf Hno.
  { exists [], s. repeat split; try done. }
  apply not_elem_of_cons in Hno as [Hc Hno].
  destruct (do_call_step s c Hwf) as (a & s1 & E & Hwf1 & Hstep).
  destruct (IH s1 Hwf1 Hno) as (tr & s' & E' & Hwf' & Hlink & Hall & Hmov).
  set (e := Event (current_player s) c a (current_player s1)).
  exists (e :: tr), s'. simpl.
  step (eq_refl : self_current_player s = Ok (current_player s, s)).
  step E.
  step (eq_refl : self_current_player s1 = Ok (current_player s1, s1)).
  step E'. split; [done|]. split; [done|]. split; [done|].
  assert (is_success e = true ∧ current_player s1 = other (current_player s)
          ∨ is_success e = false ∧ current_player s1 = current_player s)
    as [[Hs Hp]|[Hs Hp]].
  { destruct c as [row col| | | | |]; try done.
    - destruct Hstep as [[-> ->]|(-> & _ & _ & _ & ? & _)];
        [by right|by left].
    - subst s1. by right.
    - subst s1. by right.
    - subst s1. by right.
    - destruct Hstep as (_ & ? & _). by right. }
  - split; [constructor; [|done]; unfold turn_step; by rewrite Hs|].
    rewrite filter_cons_True by done. rewrite fmap_cons, Hmov.
    rewrite length_cons. simpl turns. by rewrite Hp.
  - split; [constructor; [|done]; unfold turn_step; by rewrite Hs|].
    rewrite filter_cons_False by (by rewrite Hs). by rewrite Hmov, Hp.
Qed.

(** ** Parity of the marks *)

Lemma parity_step s c a s' :
  wf s = true → parity s → do_call c s = Ok (a, s') → parity s'.
Proof.
  intros Hwf (g & Hg & Hpar) E.
  destruct (do_call_step s c Hwf) as (a0 & s0 & E0 & _ & Hstep).
  rewrite E in E0. injection E0 as <- <-.
  destruct c as [row col| | | | |]; try (subst s'; by exists g).
  - destruct Hstep as [[_ ->]|(_ & _ & _ & He & Hp & g0 & Hg0 & Hg')];
      [by exists g|].
    assert (g0 = g) as -> by congruence.
    destruct (wf_grid s Hwf) as (a0&a1&a2&b0&b1&b2&c0&c1&c2&Hs&_).
    assert (g = [[a0; a1; a2]; [b0; b1; b2]; [c0; c1; c2]]) as ->
      by congruence.
    unfold cell in He. rewrite Hg in He. simpl in He.
    eexists. split; [done|]. rewrite Hp.
    rewrite !(count_place _ _ _ _ _ _ _ _ _ _ _ _ _ He) by done.
    destruct Hpar as [[-> ?]|[-> ?]]; [right|left];
      (split; [done|]); unfold holds; simpl; lia.
  - destruct Hstep as (Hg' & Hp & _). exists g.
    by rewrite Hg', Hp.
  - destruct Hstep as [Hg' Hp]. exists blank. split; [done|]. by left.
Qed.

Lemma blank_at i j v : at_ blank (i, j) = Some v → v = " ".
Proof.
  intros Hv%at_3x3. rewrite !elem_of_cons, elem_of_nil in Hv. tauto.
Qed.

(** ** The tests of the repository

    The embedding run on the cases of [test_tic_tac_toe.py]. *)

Example test_initialization :
  current_player new_game = "X" ∧ grid new_game = Some blank.
Proof. by vm_compute. Qed.

Example test_valid_move :
  answers [MakeMove 0 0] = Some [ABool true]
  ∧ cell (played [MakeMove 0 0]) 0 0 = Some "X"
  ∧ current_player (played [MakeMove 0 0]) = "O".
Proof. by vm_compute. Qed.

Example test_invalid_move_out_of_bounds :
  answers [MakeMove (-1) 0; MakeMove 0 (-1); MakeMove 3 0; MakeMove 0 3]
  = Some [ABool false; ABool false; ABool false; ABool false].
Proof. by vm_compute. Qed.

Example test_invalid_move_occupied_cell :
  answers [MakeMove 0 0; MakeMove 0 0] = Some [ABool true; ABool false].
Proof. by vm_compute. Qed.

Example test_player_alternation :
  current_player (played [MakeMove 0 0]) = "O"
  ∧ current_player (played [MakeMove 0 0; MakeMove 1 1]) = "X".
Proof. by vm_compute. Qed.

Example test_row_win :
  last <$> answers (x_wins_top_row ++ [CheckWinner])%list
  = Some (Some (AWinner (Some "X"))).
Proof. by vm_compute. Qed.

Example test_column_win :
  last <$> answers [MakeMove 0 0; MakeMove 0 1; MakeMove 1 0; MakeMove 1 1;
                    MakeMove 2 0; CheckWinner]
  = Some (Some (AWinner (Some "X"))).
Proof. by vm_compute. Qed.

Example test_diagonal_win :
  last <$> answers [MakeMove 0 0; MakeMove 0 1; MakeMove 1 1; MakeMove 0 2;
                    MakeMove 2 2; CheckWinner]
  = Some (Some (AWinner (Some "X"))).
Proof. by vm_compute. Qed.

Example test_anti_diagonal_win :
  last <$> answers [MakeMove 0 2; MakeMove 0 0; MakeMove 1 1; MakeMove 0 1;
                    MakeMove 2 0; CheckWinner]
  = Some (Some (AWinner (Some "X"))).
Proof. by vm_compute. Qed.

Example test_no_winner_yet :
  answers [MakeMove 0 0; MakeMove 1 1; CheckWinner]
  = Some [ABool true; ABool true; AWinner None].
Proof. by vm_compute. Qed.

Example test_is_board_full :
  answers [IsBoardFull] = Some [ABool false]
  ∧ last <$> answers (tie_game ++ [IsBoardFull])%list
    = Some (Some (ABool true)).
Proof. by vm_compute. Qed.

Example test_tie_game :
  drop 9 <$> answers (tie_game ++ [CheckWinner; IsBoardFull; IsGameOver])%list
  = Some [AWinner None; ABool true; ABool true].
Proof. by vm_compute. Qed.

Example test_game_over_with_winner :
  last <$> answers (x_wins_top_row ++ [IsGameOver])%list
  = Some (Some (ABool true)).
Proof. by vm_compute. Qed.

Example test_reset :
  current_player (played [MakeMove 0 0; MakeMove 1 1; Reset]) = "X"
  ∧ grid (played [MakeMove 0 0; MakeMove 1 1; Reset]) = Some blank.
Proof. by vm_compute. Qed.

(** [board = game.get_board(); board[0][0] = 'X'], then [game.board] is
    read. *)
Example test_get_board :
  match (b ← get_board; r ← getitem_rows b 0; setitem_cells r 0 "X";;
         v ← board_item 0 0; ret (b, v)) new_game with
  | Ok ((b, v), s) => Some (v, deep (store s) b)
  | Raise _ => None
  end
  = Some (" ", Some [["X"; " "; " "]; [" "; " "; " "]; [" "; " "; " "]]).
Proof. by vm_compute. Qed.

Lemma wf_weaken s s' :
  wf s = true →
  (∀ l, is_Some (store s !! l) → store s' !! l = store s !! l) →
  board s' = board s → current_player s' = current_player s →
  wf s' = true ∧ grid s' = grid s.
Proof.
  intros (r0&r1&r2&a0&a1&a2&b0&b1&b2&c0&c1&c2&L)%wf_layout Hsame Eb Ep.
  pose proof (layout_weaken _ _ _ _ _ _ _ _ _ _ _ _ _ _ L Hsame Eb Ep)
    as L'.
  split; [by eapply layout_wf|].
  rewrite (layout_grid _ _ _ _ _ _ _ _ _ _ _ _ _ L).
  by rewrite (layout_grid _ _ _ _ _ _ _ _ _ _ _ _ _ L').
Qed.

(** * The claims *)

(** C1. In every game state, [make_move(row, col)] with [row] or [col]
    outside [0, 2], or on a cell that is not empty, returns [False]
    without raising, and the state after the call is the state before it:
    the store (hence every cell of the board) and [current_player] are
    the same. *)
Theorem make_move_rejected s row col :
  wf s = true →
  ¬ (0 ≤ row < 3) ∨ ¬ (0 ≤ col < 3)
  ∨ cell s (Z.to_nat row) (Z.to_nat col) ≠ Some " " →
  make_move row col s = Ok (false, s).
Proof.
  intros Hwf Hbad.
  destruct (make_move_run s row col Hwf)
    as [[E _]|(s' & _ & Hr & Hc & He)]; [done|].
  by destruct Hbad as [?|[?|?]].
Qed.

Lemma make_move_rejected_witness :
  let s := played [MakeMove 0 0] in
  wf s = true
  ∧ make_move 0 0 s = Ok (false, s)
  ∧ make_move (-1) 0 s = Ok (false, s)
  ∧ make_move 0 3 s = Ok (false, s).
Proof.
  intros s. split; [by vm_compute|].
  split; [|split].
  - apply (make_move_rejected s 0 0); [by vm_compute|].
    right; right. by vm_compute.
  - apply (make_move_rejected s (-1) 0); [by vm_compute|].
    left. lia.
  - apply (make_move_rejected s 0 3); [by vm_compute|].
    right; left. lia.
Defined.

(** C2. In every game state, [make_move(row, col)] with [0 <= row < 3],
    [0 <= col < 3] and an empty target cell returns [True], leaves the
    current player's mark in the target cell, makes the other mark the
    current player, and changes no other cell; the state after the call is
    a game state again. *)
Theorem make_move_accepted s row col :
  wf s = true →
  0 ≤ row < 3 → 0 ≤ col < 3 →
  cell s (Z.to_nat row) (Z.to_nat col) = Some " " →
  ∃ s',
    make_move row col s = Ok (true, s')
    ∧ cell s' (Z.to_nat row) (Z.to_nat col) = Some (current_player s)
    ∧ current_player s' = other (current_player s)
    ∧ is_mark (current_player s') = true
    ∧ current_player s' ≠ current_player s
    ∧ (∀ i j, (i, j) ≠ (Z.to_nat row, Z.to_nat col) →
         cell s' i j = cell s i j)
    ∧ wf s' = true.
Proof.
  intros Hwf Hr Hc He.
  destruct (make_move_accept_run s row col Hwf Hr Hc He)
    as (s' & g & E & Hg & Hg' & Hp & _ & Hwf').
  pose proof (wf_mark s Hwf) as Hm.
  exists s'. split; [done|]. unfold cell in *. rewrite Hg' , Hp.
  rewrite Hg in *. simpl in *.
  split; [by eapply at_place_eq|]. split; [done|].
  split; [by apply is_mark_other|]. split; [by apply other_ne|].
  split; [|done]. intros i j Hne. by apply at_place_ne.
Qed.

Lemma make_move_accepted_witness :
  wf new_game = true
  ∧ ∃ s', make_move 1 2 new_game = Ok (true, s')
          ∧ cell s' 1 2 = Some "X" ∧ current_player s' = "O".
Proof.
  split; [by vm_compute|].
  destruct (make_move_accepted new_game 1 2)
    as (s' & E & Hc & Hp & _); [by vm_compute|lia|lia|by vm_compute|].
  exists s'. split; [done|]. split; [exact Hc|exact Hp].
Defined.

(** C3. On every board of a game state, reachable by play or not,
    [check_winner()] returns without raising and without changing the
    state.  With the lines taken in the order of [lines] (rows, columns,
    main diagonal, anti-diagonal), it returns the mark of the first line
    whose three cells are equal and not empty, and [None] when no line is
    such; what it returns is ['X'], ['O'] or [None], never the empty
    cell. *)
Theorem check_winner_first_line s :
  wf s = true →
  ∃ g w,
    grid s = Some g
    ∧ check_winner s = Ok (w, s)
    ∧ w ≠ Some " "
    ∧ match w with
      | Some m =>
          is_mark m = true
          ∧ ∃ k l, lines !! k = Some l ∧ line_wins g l m
                   ∧ ∀ k' l' m', (k' < k)%nat → lines !! k' = Some l' →
                       ¬ line_wins g l' m'
      | None => ∀ l m, l ∈ lines → ¬ line_wins g l m
      end.
Proof.
  intros Hwf. destruct (check_winner_run s Hwf) as (g & Hg & E).
  exists g, (first_winner g lines). split; [done|]. split; [done|].
  pose proof (first_winner_spec g lines) as Hspec.
  destruct (first_winner g lines) as [m|].
  - destruct Hspec as (k & l & Hk & Hw & Hfirst).
    apply line_winner_Some in Hw as Hwins.
    split; [intros [= ->]; by destruct Hwins|].
    split.
    + destruct Hwins as [Hall Hne].
      assert (length l = 3%nat) as Hlen.
      { apply lines_length. by eapply list_elem_of_lookup_2. }
      destruct l as [|ij l]; [done|].
      apply Forall_cons in Hall as [Hat _].
      assert (is_cell m = true) as [->| Hm]%is_cell_cases; [|done|].
      { destruct ij as [i j]. apply (wf_cell s i j); [done|].
        unfold cell. by rewrite Hg. }
      by apply is_mark_cases.
    + exists k, l. repeat split; try done; try by destruct Hwins.
      intros k' l' m' Hlt Hl'. apply line_winner_None.
      * apply lines_length. by eapply list_elem_of_lookup_2.
      * by eapply Hfirst.
  - split; [done|]. intros l m Hl. apply line_winner_None.
    + by apply lines_length.
    + by apply Hspec.
Qed.

Lemma check_winner_first_line_witness :
  wf two_winners = true
  ∧ grid two_winners
    = Some [[" "; " "; " "]; ["X"; "X"; "X"]; ["O"; "O"; "O"]]
  ∧ check_winner two_winners = Ok (Some "X", two_winners).
Proof.
  split; [by vm_compute|]. split; [by vm_compute|].
  destruct (check_winner_first_line two_winners)
    as (g & w & _ & E & _); [by vm_compute|].
  rewrite E. by vm_compute in E.
Defined.

(** C4. In every game state, [is_game_over()] returns [True] exactly when
    [check_winner()] returns a mark or no cell of the board is empty, and
    [is_board_full()] returns [True] exactly when no cell is empty; the
    three calls return without raising and leave the state as it was. *)
Theorem is_game_over_iff s :
  wf s = true →
  ∃ w full over,
    check_winner s = Ok (w, s)
    ∧ is_board_full s = Ok (full, s)
    ∧ is_game_over s = Ok (over, s)
    ∧ (full = true ↔ ∀ i j, cell s i j ≠ Some " ")
    ∧ (over = true ↔ is_Some w ∨ ∀ i j, cell s i j ≠ Some " ").
Proof.
  intros Hwf.
  destruct (check_winner_run s Hwf) as (g & Hg & Ew).
  destruct (is_board_full_run s Hwf) as (g1 & Hg1 & Ef).
  destruct (is_game_over_run s Hwf) as (g2 & Hg2 & Eo).
  assert (g1 = g) as -> by congruence.
  assert (g2 = g) as -> by congruence.
  eexists _, _, _. split; [done|]. split; [done|]. split; [done|].
  split; [by apply no_blank_cells|].
  rewrite orb_true_iff, bool_decide_eq_true.
  by rewrite (no_blank_cells s g Hg).
Qed.

Lemma is_game_over_iff_witness :
  wf new_game = true
  ∧ is_game_over new_game = Ok (false, new_game)
  ∧ wf (played x_wins_top_row) = true
  ∧ is_game_over (played x_wins_top_row)
    = Ok (true, played x_wins_top_row).
Proof.
  split; [by vm_compute|]. split.
  { destruct (is_game_over_iff new_game)
      as (w & full & over & _ & _ & E & _); [by vm_compute|].
    rewrite E. by vm_compute in E. }
  split; [by vm_compute|].
  destruct (is_game_over_iff (played x_wins_top_row))
    as (w & full & over & _ & _ & E & _); [by vm_compute|].
  rewrite E. by vm_compute in E.
Defined.

(** C5. In every game state, [get_board()] returns a list that equals the
    board cell for cell and is made of list objects of its own, none of
    which existed before the call; the game keeps its board and its
    player.  Whatever a client then writes into the returned list or its
    rows (or into lists the client builds), the board is as it was, and a
    second [get_board()] returns the original value. *)
Theorem get_board_snapshot s :
  wf s = true →
  ∃ b s1,
    get_board s = Ok (b, s1)
    ∧ is_Some (grid s)
    ∧ deep (store s1) b = grid s
    ∧ grid s1 = grid s
    ∧ board s1 = board s
    ∧ current_player s1 = current_player s
    ∧ wf s1 = true
    ∧ (∀ l, l ∈ owned (store s1) b → l ∉ dom (store s))
    ∧ ∀ ws, Forall (client_write s1 b) ws →
        grid (mutate ws s1) = grid s
        ∧ ∃ b2 s2, get_board (mutate ws s1) = Ok (b2, s2)
                   ∧ deep (store s2) b2 = grid s.
Proof.
  intros Hwf.
  destruct (get_board_run s Hwf)
    as (b & s1 & E & Hsub & Hb & Hp & Hdeep & Hg & Hwf1 & Hown).
  exists b, s1. split; [done|].
  split.
  { destruct (wf_grid s Hwf) as (?&?&?&?&?&?&?&?&?&->&_). by eexists. }
  repeat (split; [done|]).
  intros ws Hws.
  assert (∀ l, is_Some (store s !! l) →
               store (mutate ws s1) !! l = store s !! l) as Hsame.
  { intros l [o Hl]. rewrite mutate_lookup.
    - rewrite Hl. by eapply lookup_weaken.
    - intros (w & -> & Hw)%list_elem_of_fmap_1.
      eapply Forall_forall in Hws as [Hin|Hnew]; [| |done].
      + apply Hown in Hin. apply Hin, elem_of_dom. by eexists.
      + apply Hnew, elem_of_dom. exists o. by eapply lookup_weaken. }
  destruct (wf_weaken s (mutate ws s1) Hwf Hsame) as [Hwf2 Hg2];
    [done|done|].
  split; [done|].
  destruct (get_board_run _ Hwf2) as (b2 & s2 & E2 & _ & _ & _ & Hd2 & _).
  exists b2, s2. split; [done|]. by rewrite Hd2.
Qed.

Lemma get_board_snapshot_witness :
  let s1 := played [GetBoard] in
  let ws := [(5%positive, OCells ["X"; " "; " "]);
             (8%positive, ORows [5%positive; 1%positive]);
             (9%positive, OCells ["O"])] in
  wf new_game = true
  ∧ get_board new_game = Ok (8%positive, s1)
  ∧ Forall (client_write s1 8%positive) ws
  ∧ deep (store (mutate ws s1)) 8%positive
    = Some [["X"; " "; " "]; [" "; " "; " "]]
  ∧ grid (mutate ws s1) = Some blank.
Proof.
  intros s1 ws. split; [by vm_compute|].
  destruct (get_board_snapshot new_game)
    as (b & s1' & E & _ & _ & _ & _ & _ & _ & _ & Hmut); [by vm_compute|].
  assert (b = 8%positive ∧ s1' = s1) as [-> ->].
  { vm_compute in E. injection E as <- <-. by vm_compute. }
  split; [done|].
  assert (Forall (client_write s1 8%positive) ws) as Hws.
  { unfold ws, client_write.
    apply Forall_cons. split.
    { left. apply (bool_decide_unpack _). by vm_compute. }
    apply Forall_cons. split.
    { left. apply (bool_decide_unpack _). by vm_compute. }
    apply Forall_cons. split; [|done].
    right. apply (bool_decide_unpack _). by vm_compute. }
  split; [done|]. split; [by vm_compute|].
  destruct (Hmut ws Hws) as [-> _]. by vm_compute.
Defined.

(** C6. A game constructed in any store has nine empty cells and ['X'] to
    move.  After any sequence of calls on it (of [make_move] in
    particular), [reset()] returns without raising and the game has nine
    empty cells and ['X'] to move again: the board value and the player of
    a newly constructed game. *)
Theorem reset_restores_initial h0 cs :
  ∃ s0 tr s s',
    init h0 = Ok (tt, s0)
    ∧ grid s0 = Some blank ∧ current_player s0 = "X"
    ∧ run_calls cs s0 = Ok (tr, s)
    ∧ reset s = Ok (tt, s')
    ∧ grid s' = Some blank ∧ current_player s' = "X"
    ∧ ∀ h1, ∃ s1, init h1 = Ok (tt, s1)
                  ∧ grid s1 = grid s'
                  ∧ current_player s1 = current_player s'.
Proof.
  destruct (init_run h0) as (b0 & r0 & r1 & r2 & h & E0 & _ & L0).
  destruct (run_calls_invariant (λ _, True) cs) with (s := State h b0 "X")
    as (tr & s & E & _ & _); [done|by eapply layout_wf|done|].
  destruct (reset_run s) as (b' & r0' & r1' & r2' & h' & E' & _ & L').
  eexists _, tr, s, _. split; [done|].
  split; [by rewrite (layout_grid _ _ _ _ _ _ _ _ _ _ _ _ _ L0)|].
  split; [done|]. split; [done|]. split; [done|].
  split; [by rewrite (layout_grid _ _ _ _ _ _ _ _ _ _ _ _ _ L')|].
  split; [done|]. intros h1.
  destruct (init_run h1) as (b1 & q0 & q1 & q2 & h1' & E1 & _ & L1).
  eexists. split; [done|]. split; [|done].
  rewrite (layout_grid _ _ _ _ _ _ _ _ _ _ _ _ _ L1).
  by rewrite (layout_grid _ _ _ _ _ _ _ _ _ _ _ _ _ L').
Qed.

(** C7. In every sequence of calls of [make_move] and of the queries on a
    newly constructed game, the calls run to their end; the k-th call of
    [make_move] that returns [True], counting from 1, is made with ['X']
    to move when k is odd and with ['O'] when k is even; such a call hands
    the move to the other player, and every other call (a [make_move]
    that returns [False], [check_winner], [is_board_full],
    [is_game_over], [get_board]) leaves [current_player] as it was. *)
Theorem players_alternate h0 cs :
  Reset ∉ cs →
  ∃ s0 tr s,
    init h0 = Ok (tt, s0)
    ∧ run_calls cs s0 = Ok (tr, s)
    ∧ linked "X" tr (current_player s)
    ∧ Forall turn_step tr
    ∧ ∀ k e, (1 ≤ k)%nat →
        filter (λ e, is_success e = true) tr !! (k - 1)%nat = Some e →
        ev_before e = (if Nat.odd k then "X" else "O").
Proof.
  intros Hno.
  destruct (init_run h0) as (b0 & r0 & r1 & r2 & h & E0 & _ & L0).
  destruct (run_calls_turns cs (State h b0 "X"))
    as (tr & s & E & _ & Hlink & Hstep & Hmov);
    [by eapply layout_wf|done|].
  eexists _, tr, s. repeat (split; [done|]).
  intros k e Hk He.
  assert (turns "X" (length (filter (λ e, is_success e = true) tr))
            !! (k - 1)%nat = Some (ev_before e)) as Ht.
  { simpl in Hmov. rewrite <- Hmov, list_lookup_fmap. by rewrite He. }
  rewrite turns_lookup in Ht; [|done|by eapply lookup_lt_Some].
  injection Ht as <-. destruct k as [|k]; [lia|].
  replace (S k - 1)%nat with k by lia.
  rewrite Nat.odd_succ. by destruct (Nat.even k).
Qed.

Lemma players_alternate_witness :
  let cs :=
    (x_wins_top_row ++ [MakeMove 0 0; CheckWinner; MakeMove 2 2])%list in
  (Reset ∉ cs)
  ∧ ∃ tr, run_calls cs new_game = Ok (tr, played cs)
          ∧ ev_before <$> filter (λ e, is_success e = true) tr
            = ["X"; "O"; "X"; "O"; "X"; "O"].
Proof.
  intros cs.
  assert (Reset ∉ cs) as Hno.
  { apply (bool_decide_unpack _). by vm_compute. }
  split; [done|].
  destruct (players_alternate ∅ cs Hno) as (s0 & tr & s & E0 & E & _).
  assert (s0 = new_game) as ->.
  { unfold new_game. by rewrite E0. }
  exists tr. split.
  - unfold played. by rewrite E.
  - vm_compute in E. injection E as <- _. by vm_compute.
Defined.

(** C8. In every game state, every call of [make_move], whether it
    returns [True] or [False], and every query leave each cell that holds
    ['X'] or ['O'] with the same mark; [reset()] is the call that leaves
    every cell empty. *)
Theorem marks_stay s c :
  wf s = true →
  ∃ a s',
    do_call c s = Ok (a, s')
    ∧ match c with
      | Reset => ∀ i j v, cell s' i j = Some v → v = " "
      | _ => ∀ i j v, cell s i j = Some v → v ≠ " " →
               cell s' i j = Some v
      end.
Proof.
  intros Hwf.
  destruct (do_call_step s c Hwf) as (a & s' & E & _ & Hstep).
  exists a, s'. split; [done|].
  destruct c as [row col| | | | |]; try (by subst s').
  - destruct Hstep as [[_ ->]|(_ & _ & _ & He & _ & g & Hg & Hg')];
      [done|].
    intros i j v Hv Hne. unfold cell in *. rewrite Hg in *.
    rewrite Hg'. simpl in *. rewrite at_place_ne; [done|].
    intros [= -> ->]. congruence.
  - destruct Hstep as (Hg & _). unfold cell. by rewrite Hg.
  - destruct Hstep as (Hg & _). unfold cell. rewrite Hg. simpl.
    intros i j v. apply blank_at.
Qed.

Lemma marks_stay_witness :
  let s := played x_wins_top_row in
  wf s = true
  ∧ cell s 0 0 = Some "X"
  ∧ (∃ a s', do_call (MakeMove 0 0) s = Ok (a, s')
             ∧ cell s' 0 0 = Some "X")
  ∧ (∃ a s', do_call (MakeMove 2 2) s = Ok (a, s')
             ∧ cell s' 0 0 = Some "X")
  ∧ (∃ a s', do_call Reset s = Ok (a, s') ∧ cell s' 0 0 = Some " ").
Proof.
  intros s. split; [by vm_compute|]. split; [by vm_compute|].
  split; [|split].
  - destruct (marks_stay s (MakeMove 0 0)) as (a & s' & E & H);
      [by vm_compute|].
    exists a, s'. split; [done|]. apply H; [by vm_compute|done].
  - destruct (marks_stay s (MakeMove 2 2)) as (a & s' & E & H);
      [by vm_compute|].
    exists a, s'. split; [done|]. apply H; [by vm_compute|done].
  - destruct (marks_stay s Reset) as (a & s' & E & H); [by vm_compute|].
    exists a, s'. split; [done|].
    vm_compute in E. injection E as <- <-. by vm_compute.
Defined.

(** C9. [make_move] has no guard on the end of the game.  After the five
    moves of [x_wins_top_row] on a new game, [check_winner()] returns
    ['X'] and [is_game_over()] returns [True], and [make_move(2, 2)], on
    an empty cell, still returns [True], writes the mark of the player to
    move and hands the move over.  In every game state where
    [is_game_over()] returns [True], a move to an empty cell of the board
    is made as in any other state. *)
Theorem move_after_game_over :
  (∃ tr s s',
     init ∅ = Ok (tt, new_game)
     ∧ run_calls x_wins_top_row new_game = Ok (tr, s)
     ∧ check_winner s = Ok (Some "X", s)
     ∧ is_game_over s = Ok (true, s)
     ∧ cell s 2 2 = Some " "
     ∧ make_move 2 2 s = Ok (true, s')
     ∧ cell s' 2 2 = Some "O"
     ∧ current_player s = "O" ∧ current_player s' = "X")
  ∧ ∀ s row col,
      wf s = true →
      is_game_over s = Ok (true, s) →
      0 ≤ row < 3 → 0 ≤ col < 3 →
      cell s (Z.to_nat row) (Z.to_nat col) = Some " " →
      ∃ s', make_move row col s = Ok (true, s')
            ∧ cell s' (Z.to_nat row) (Z.to_nat col)
              = Some (current_player s)
            ∧ current_player s' = other (current_player s)
            ∧ current_player s' ≠ current_player s.
Proof.
  split.
  - eexists _, _, _. split; [by vm_compute|].
    split; [vm_compute; reflexivity|].
    split; [by vm_compute|]. split; [by vm_compute|].
    split; [by vm_compute|]. split; [vm_compute; reflexivity|].
    split; [by vm_compute|]. split; by vm_compute.
  - intros s row col Hwf _ Hr Hc He.
    destruct (make_move_accept_run s row col Hwf Hr Hc He)
      as (s' & g & E & Hg & Hg' & Hp & _ & _).
    exists s'. split; [done|]. unfold cell in *. rewrite Hg', Hp.
    rewrite Hg in He. simpl in *.
    split; [by eapply at_place_eq|]. split; [done|].
    by apply other_ne, wf_mark.
Qed.

Lemma move_after_game_over_witness :
  let s := played x_wins_top_row in
  wf s = true
  ∧ is_game_over s = Ok (true, s)
  ∧ cell s 2 2 = Some " "
  ∧ ∃ s', make_move 2 2 s = Ok (true, s') ∧ cell s' 2 2 = Some "O".
Proof.
  intros s. split; [by vm_compute|]. split; [by vm_compute|].
  split; [by vm_compute|].
  destruct (proj2 move_after_game_over s 2 2)
    as (s' & E & Hc & _); [by vm_compute|by vm_compute|lia|lia|
                           by vm_compute|].
  exists s'. split; [done|]. exact Hc.
Defined.

(** C10. In every state that a sequence of calls ([make_move], [reset]
    and the queries, in any order) reaches from a newly constructed game,
    the board holds as many ['X'] as ['O'] when ['X'] is to move, and one
    ['X'] more than ['O'] when ['O'] is to move. *)
Theorem marks_parity h0 cs :
  ∃ s0 tr s g,
    init h0 = Ok (tt, s0)
    ∧ run_calls cs s0 = Ok (tr, s)
    ∧ grid s = Some g
    ∧ ((current_player s = "X"
        ∧ count_mark "X" g = count_mark "O" g)
       ∨ (current_player s = "O"
          ∧ count_mark "X" g = S (count_mark "O" g))).
Proof.
  destruct (init_run h0) as (b0 & r0 & r1 & r2 & h & E0 & _ & L0).
  destruct (run_calls_invariant parity cs parity_step (State h b0 "X"))
    as (tr & s & E & _ & g & Hg & Hpar).
  { by eapply layout_wf. }
  { exists blank. split; [by eapply layout_grid|]. by left. }
  by exists (State h b0 "X"), tr, s, g.
Qed.

(** * Further properties of the class *)

(** ** Lines under a move *)

Lemma first_winner_None_inv g l m :
  first_winner g lines = None → l ∈ lines → ¬ line_wins g l m.
Proof.
  intros Hnone Hl. pose proof (first_winner_spec g lines) as Hspec.
  rewrite Hnone in Hspec. apply line_winner_None.
  - by apply lines_length.
  - by apply Hspec.
Qed.

Lemma first_winner_Some_intro g l m :
  l ∈ lines → line_wins g l m → is_Some (first_winner g lines).
Proof.
  intros Hl Hw. destruct (first_winner g lines) eqn:E; [done|].
  by destruct (first_winner_None_inv g l m E Hl).
Qed.

(** A line that wins keeps winning when a mark goes to an empty cell. *)
Lemma line_wins_place g l m i j p :
  at_ g (i, j) = Some " " → line_wins g l m →
  line_wins (place g i j p) l m.
Proof.
  intros He [Hall Hm]. split; [|done].
  eapply Forall_impl; [done|]. intros [i' j'] Hat. simpl in *.
  rewrite at_place_ne; [done|]. intros [= -> ->]. congruence.
Qed.

(** A line that wins after a mark went to a cell, on a board where it did
    not win before, holds that mark. *)
Lemma line_wins_placed g l m i j p v :
  at_ g (i, j) = Some v → ¬ line_wins g l m →
  line_wins (place g i j p) l m → m = p.
Proof.
  intros Hv Hnot [Hall Hm].
  destruct (decide ((i, j) ∈ l)) as [Hin|Hout].
  - eapply Forall_forall in Hall; [|done].
    rewrite (at_place_eq _ _ _ _ _ Hv) in Hall. congruence.
  - destruct Hnot. split; [|done].
    apply Forall_forall. intros ij Hij.
    eapply Forall_forall in Hall; [|done].
    destruct ij as [i' j']. rewrite at_place_ne in Hall; [done|].
    intros E. by rewrite E in Hij.
Qed.

(** ** Marks on the board *)

Lemma holds_mark p :
  is_mark p = true → (holds "X" p + holds "O" p = 1)%nat.
Proof. by intros [-> | ->]%is_mark_cases. Qed.

Lemma holds_le v : (holds "X" v + holds "O" v ≤ 1)%nat.
Proof.
  unfold holds.
  destruct (String.eqb v "X") eqn:EX, (String.eqb v "O") eqn:EO; try lia.
  apply String.eqb_eq in EX, EO. congruence.
Qed.

Lemma marks_le a0 a1 a2 b0 b1 b2 c0 c1 c2 :
  (marks [[a0; a1; a2]; [b0; b1; b2]; [c0; c1; c2]] ≤ 9)%nat.
Proof.
  unfold marks, count_mark. simpl.
  pose proof (holds_le a0). pose proof (holds_le a1).
  pose proof (holds_le a2). pose proof (holds_le b0).
  pose proof (holds_le b1). pose proof (holds_le b2).
  pose proof (holds_le c0). pose proof (holds_le c1).
  pose proof (holds_le c2). lia.
Qed.

Lemma marks_place a0 a1 a2 b0 b1 b2 c0 c1 c2 i j p :
  let g := [[a0; a1; a2]; [b0; b1; b2]; [c0; c1; c2]] in
  at_ g (i, j) = Some " " → is_mark p = true →
  marks (place g i j p) = S (marks g).
Proof.
  intros g He Hp. subst g. unfold marks.
  rewrite (count_place _ _ _ _ _ _ _ _ _ _ _ _ "X" He) by done.
  rewrite (count_place _ _ _ _ _ _ _ _ _ _ _ _ "O" He) by done.
  pose proof (holds_mark p Hp). lia.
Qed.

(** The successful moves of a sequence of calls without [reset] are
    counted by the marks they leave. *)
Lemma run_calls_marks cs : ∀ s g,
  wf s = true → grid s = Some g → Reset ∉ cs →
  ∃ tr s' g',
    run_calls cs s = Ok (tr, s') ∧ grid s' = Some g'
    ∧ wf s' = true
    ∧ marks g' = (marks g
                  + length (filter (λ e, is_success e = true) tr))%nat.
Proof.
  induction cs as [|c cs IH]; intros s g Hwf Hg Hno.
  { exists [], s, g. repeat split; try done; simpl; lia. }
  apply not_elem_of_cons in Hno as [Hc Hno].
  destruct (do_call_step s c Hwf) as (a & s1 & E & Hwf1 & Hstep).
  set (e := Event (current_player s) c a (current_player s1)).
  assert (∃ g1, grid s1 = Some g1
                ∧ marks g1 = (marks g + if is_success e then 1 else 0)%nat)
    as (g1 & Hg1 & Hm1).
  { destruct c as [row col| | | | |]; try done.
    - destruct Hstep as [[-> ->]|(-> & _ & _ & He & _ & g0 & Hg0 & Hg')].
      + exists g. split; [done|]. simpl. lia.
      + assert (g0 = g) as -> by congruence.
        eexists. split; [done|]. simpl.
        destruct (wf_grid s Hwf) as (a0&a1&a2&b0&b1&b2&c0&c1&c2&Hs&_).
        assert (g = [[a0; a1; a2]; [b0; b1; b2]; [c0; c1; c2]]) as ->
          by congruence.
        unfold cell in He. rewrite Hg in He. simpl in He.
        rewrite marks_place; [lia|done|by apply wf_mark].
    - subst s1. exists g. split; [done|]. simpl. lia.
    - subst s1. exists g. split; [done|]. simpl. lia.
    - subst s1. exists g. split; [done|]. simpl. lia.
    - destruct Hstep as (Hg' & _). exists g.
      split; [by rewrite Hg'|]. simpl. lia. }
  destruct (IH s1 g1 Hwf1 Hg1 Hno) as (tr & s' & g' & E' & Hg' & Hwf' & Hm).
  exists (e :: tr), s', g'. simpl.
  step (eq_refl : self_current_player s = Ok (current_player s, s)).
  step E.
  step (eq_refl : self_current_player s1 = Ok (current_player s1, s1)).
  step E'. split; [done|]. split; [done|]. split; [done|].
  rewrite Hm, Hm1. destruct (is_success e) eqn:Hs.
  - rewrite filter_cons_True by done. simpl. lia.
  - rewrite filter_cons_False by (by rewrite Hs). lia.
Qed.

(** ** What a call leaves of the store *)

(** [make_move] writes to a row of the board and to nothing else. *)
Lemma make_move_frame s row col b s' l :
  wf s = true → make_move row col s = Ok (b, s') →
  l ∉ owned (store s) (board s) → store s' !! l = store s !! l.
Proof.
  intros Hwf E Hl.
  destruct (make_move_run s row col Hwf)
    as [[E0 _]|(s0 & E0 & Hr & Hc & He)]; rewrite E in E0.
  { by injection E0 as _ ->. }
  injection E0 as _ ->.
  destruct (wf_layout s Hwf) as (r0&r1&r2&a0&a1&a2&b0&b1&b2&c0&c1&c2&L).
  destruct (layout_cell _ _ _ _ _ _ _ _ _ _ _ _ _
              (Z.to_nat row) (Z.to_nat col) L)
    as (r & cs & v & Hi & Hrow & Hj & Hat); [lia|lia|].
  rewrite (cell_layout _ _ _ _ _ _ _ _ _ _ _ _ _ _ _ L), Hat in He.
  injection He as ->.
  pose proof (make_move_empty s [r0; r1; r2] (Z.to_nat row) (Z.to_nat col)
                r cs ltac:(lia) ltac:(lia)
                (lay_board _ _ _ _ _ _ _ _ _ _ _ _ _ L) Hi Hrow Hj) as E1.
  rewrite !Z2Nat.id in E1 by lia. rewrite E in E1.
  simplify_eq. simpl. apply lookup_insert_ne. intros <-. apply Hl.
  unfold owned. rewrite (lay_board _ _ _ _ _ _ _ _ _ _ _ _ _ L).
  right. by eapply list_elem_of_lookup_2.
Qed.

(** ** Moves, winners and the end of the game *)

Lemma is_game_over_grid s g :
  wf s = true → grid s = Some g →
  is_game_over s
  = Ok (bool_decide (is_Some (first_winner g lines)) || no_blank g, s).
Proof.
  intros Hwf Hg. destruct (is_game_over_run s Hwf) as (g0 & Hg0 & E).
  by assert (g0 = g) as -> by congruence.
Qed.

Lemma check_winner_grid s g :
  wf s = true → grid s = Some g →
  check_winner s = Ok (first_winner g lines, s).
Proof.
  intros Hwf Hg. destruct (check_winner_run s Hwf) as (g0 & Hg0 & E).
  by assert (g0 = g) as -> by congruence.
Qed.

Lemma is_board_full_grid s g :
  wf s = true → grid s = Some g → is_board_full s = Ok (no_blank g, s).
Proof.
  intros Hwf Hg. destruct (is_board_full_run s Hwf) as (g0 & Hg0 & E).
  by assert (g0 = g) as -> by congruence.
Qed.

(** A finished board stays finished when a mark goes to an empty cell. *)
Lemma over_place g i j p :
  at_ g (i, j) = Some " " →
  bool_decide (is_Some (first_winner g lines)) || no_blank g = true →
  bool_decide (is_Some (first_winner (place g i j p) lines))
  || no_blank (place g i j p) = true.
Proof.
  intros He [Hw|Hfull]%orb_true_iff.
  - apply bool_decide_eq_true in Hw as [m Hm].
    pose proof (first_winner_spec g lines) as Hspec. rewrite Hm in Hspec.
    destruct Hspec as (k & l & Hk & Hl%line_winner_Some & _).
    apply orb_true_iff. left. apply bool_decide_eq_true.
    apply (first_winner_Some_intro _ l m).
    + by eapply list_elem_of_lookup_2.
    + by apply line_wins_place.
  - rewrite no_blank_spec in Hfull. by destruct (Hfull i j " " He).
Qed.

(** X1. In every game state, after a call [make_move(row, col)], whatever
    it returned, the same call again returns [False] and changes
    nothing: a cell is written at most once. *)
Theorem make_move_twice s row col :
  wf s = true →
  ∃ b s1,
    make_move row col s = Ok (b, s1)
    ∧ make_move row col s1 = Ok (false, s1).
Proof.
  intros Hwf.
  destruct (make_move_run s row col Hwf)
    as [[E Hbad]|(s1 & E & Hr & Hc & He)].
  { exists false, s. split; [done|]. by apply make_move_reject_run. }
  exists true, s1. split; [done|].
  destruct (make_move_accept_run s row col Hwf Hr Hc He)
    as (s1' & g & E' & Hg & Hg' & _ & _ & Hwf1).
  assert (s1' = s1) as -> by congruence.
  apply make_move_reject_run; [done|]. right; right.
  unfold cell in *. rewrite Hg'. rewrite Hg in He. simpl in *.
  rewrite (at_place_eq _ _ _ _ _ He). intros [= Hp].
  pose proof (wf_mark s Hwf) as Hm. rewrite Hp in Hm. done.
Qed.

Lemma make_move_twice_witness :
  wf new_game = true
  ∧ ∃ s1, make_move 1 1 new_game = Ok (true, s1)
          ∧ make_move 1 1 s1 = Ok (false, s1).
Proof.
  split; [by vm_compute|].
  destruct (make_move_twice new_game 1 1) as (b & s1 & E & E2);
    [by vm_compute|].
  exists s1. split; [|done].
  rewrite E. f_equal. f_equal. vm_compute in E. congruence.
Defined.

(** X2. Once [is_game_over()] returns [True], it returns [True] after
    every further call other than [reset()]: moves made after the end of
    the game (which [make_move] accepts) and queries never reopen it. *)
Theorem game_over_stays s c :
  wf s = true →
  is_game_over s = Ok (true, s) →
  c ≠ Reset →
  ∃ a s', do_call c s = Ok (a, s') ∧ is_game_over s' = Ok (true, s').
Proof.
  intros Hwf Hover Hc.
  destruct (do_call_step s c Hwf) as (a & s' & E & Hwf' & Hstep).
  exists a, s'. split; [done|].
  destruct (is_game_over_run s Hwf) as (g & Hg & Eo).
  assert (bool_decide (is_Some (first_winner g lines)) || no_blank g = true)
    as Hov by congruence.
  destruct c as [row col| | | | |]; try done; try (by subst s').
  - destruct Hstep as [[_ ->]|(_ & _ & _ & He & _ & g0 & Hg0 & Hg')];
      [done|].
    assert (g0 = g) as -> by congruence.
    rewrite (is_game_over_grid s' _ Hwf' Hg').
    unfold cell in He. rewrite Hg in He. simpl in He.
    by rewrite over_place.
  - destruct Hstep as (Hg' & _). rewrite Hg in Hg'.
    by rewrite (is_game_over_grid s' _ Hwf' Hg'), Hov.
Qed.

Lemma game_over_stays_witness :
  let s := played x_wins_top_row in
  wf s = true
  ∧ is_game_over s = Ok (true, s)
  ∧ ∃ a s', do_call (MakeMove 2 2) s = Ok (a, s')
            ∧ a = ABool true
            ∧ is_game_over s' = Ok (true, s').
Proof.
  intros s. split; [by vm_compute|]. split; [by vm_compute|].
  destruct (game_over_stays s (MakeMove 2 2)) as (a & s' & E & Ho);
    [by vm_compute|by vm_compute|done|].
  exists a, s'. split; [done|]. split; [|done].
  vm_compute in E. congruence.
Defined.

(** X3. In a game state where [check_winner()] returns [None], after a
    call of [make_move] that returns [True] every complete line holds the
    mark of the player who moved, so [check_winner()] returns [None] or
    that player's mark: a move never makes the other player win. *)
Theorem only_the_mover_wins s row col s' :
  wf s = true →
  check_winner s = Ok (None, s) →
  make_move row col s = Ok (true, s') →
  ∃ g' w,
    grid s' = Some g'
    ∧ check_winner s' = Ok (w, s')
    ∧ (w = None ∨ w = Some (current_player s))
    ∧ ∀ l m, l ∈ lines → line_wins g' l m → m = current_player s.
Proof.
  intros Hwf Hnone E.
  destruct (make_move_run s row col Hwf)
    as [[E0 _]|(s0 & E0 & Hr & Hc & He)]; rewrite E in E0; [done|].
  destruct (make_move_accept_run s row col Hwf Hr Hc He)
    as (s1 & g & E1 & Hg & Hg' & _ & _ & Hwf1).
  assert (s1 = s') as -> by congruence.
  rewrite (check_winner_grid s g Hwf Hg) in Hnone.
  injection Hnone as Hnone.
  unfold cell in He. rewrite Hg in He. simpl in He.
  assert (∀ l m, l ∈ lines →
            line_wins (place g (Z.to_nat row) (Z.to_nat col)
                         (current_player s)) l m →
            m = current_player s) as Hlines.
  { intros l m Hl Hw. eapply line_wins_placed; [done| |done].
    by apply first_winner_None_inv. }
  eexists _, _. split; [done|].
  split; [by apply check_winner_grid|]. split; [|done].
  pose proof (first_winner_spec
                (place g (Z.to_nat row) (Z.to_nat col) (current_player s))
                lines) as Hspec.
  destruct (first_winner _ lines) as [m|]; [|by left].
  right. destruct Hspec as (k & l & Hk & Hl%line_winner_Some & _).
  f_equal. eapply Hlines; [|done]. by eapply list_elem_of_lookup_2.
Qed.

Lemma only_the_mover_wins_witness :
  let s := played [MakeMove 0 0; MakeMove 1 0; MakeMove 0 1; MakeMove 1 1] in
  wf s = true
  ∧ check_winner s = Ok (None, s)
  ∧ current_player s = "X"
  ∧ check_winner (played x_wins_top_row)
    = Ok (Some "X", played x_wins_top_row).
Proof.
  intros s. split; [by vm_compute|]. split; [by vm_compute|].
  split; [by vm_compute|].
  destruct (only_the_mover_wins s 0 2 (played x_wins_top_row))
    as (g' & w & _ & E & [->| ->] & _);
    [by vm_compute|by vm_compute|by vm_compute| |done].
  by vm_compute in E.
Defined.

(** X4. In a sequence of calls without [reset()] on a new game, the calls
    of [make_move] that return [True] are as many as the marks on the
    board at the end, and never more than nine. *)
Theorem at_most_nine_moves h0 cs :
  Reset ∉ cs →
  ∃ s0 tr s g,
    init h0 = Ok (tt, s0)
    ∧ run_calls cs s0 = Ok (tr, s)
    ∧ grid s = Some g
    ∧ length (filter (λ e, is_success e = true) tr) = marks g
    ∧ (length (filter (λ e, is_success e = true) tr) ≤ 9)%nat.
Proof.
  intros Hno.
  destruct (init_run h0) as (b0 & r0 & r1 & r2 & h & E0 & _ & L0).
  destruct (run_calls_marks cs (State h b0 "X") blank)
    as (tr & s & g & E & Hg & Hwf & Hm);
    [by eapply layout_wf|by eapply layout_grid|done|].
  exists (State h b0 "X"), tr, s, g.
  split; [done|]. split; [done|]. split; [done|].
  change (marks blank) with 0%nat in Hm. split; [lia|].
  destruct (wf_grid s Hwf) as (a0&a1&a2&b0'&b1&b2&c0&c1&c2&Hs&_).
  assert (g = [[a0; a1; a2]; [b0'; b1; b2]; [c0; c1; c2]]) as ->
    by congruence.
  pose proof (marks_le a0 a1 a2 b0' b1 b2 c0 c1 c2). lia.
Qed.

Lemma at_most_nine_moves_witness :
  let cs := (tie_game ++ [MakeMove 0 0; MakeMove 2 2; IsGameOver])%list in
  (Reset ∉ cs)
  ∧ ∃ tr, run_calls cs new_game = Ok (tr, played cs)
          ∧ length tr = 12%nat
          ∧ length (filter (λ e, is_success e = true) tr) = 9%nat.
Proof.
  intros cs.
  assert (Reset ∉ cs) as Hno.
  { apply (bool_decide_unpack _). by vm_compute. }
  split; [done|].
  destruct (at_most_nine_moves ∅ cs Hno) as (s0 & tr & s & g & E0 & E & _).
  assert (s0 = new_game) as ->.
  { unfold new_game. by rewrite E0. }
  exists tr. split.
  - unfold played. by rewrite E.
  - vm_compute in E. injection E as <- _. by vm_compute.
Defined.

(** ** The lists a game writes to *)

(** The one write of [make_move] goes to a row of the board. *)
Lemma make_move_write s row col b s' :
  wf s = true → make_move row col s = Ok (b, s') →
  s' = s
  ∨ ∃ r cs,
      r ∈ owned (store s) (board s)
      ∧ r ≠ board s
      ∧ store s' = <[r := OCells cs]> (store s)
      ∧ board s' = board s.
Proof.
  intros Hwf E.
  destruct (make_move_run s row col Hwf)
    as [[E0 _]|(s0 & E0 & Hr & Hc & He)]; rewrite E in E0.
  { left. congruence. }
  right.
  destruct (wf_layout s Hwf) as (r0&r1&r2&a0&a1&a2&b0&b1&b2&c0&c1&c2&L).
  destruct (layout_cell _ _ _ _ _ _ _ _ _ _ _ _ _
              (Z.to_nat row) (Z.to_nat col) L)
    as (r & cs & v & Hi & Hrow & Hj & Hat); [lia|lia|].
  rewrite (cell_layout _ _ _ _ _ _ _ _ _ _ _ _ _ _ _ L), Hat in He.
  injection He as ->.
  pose proof (make_move_empty s [r0; r1; r2] (Z.to_nat row) (Z.to_nat col)
                r cs ltac:(lia) ltac:(lia)
                (lay_board _ _ _ _ _ _ _ _ _ _ _ _ _ L) Hi Hrow Hj) as E1.
  rewrite !Z2Nat.id in E1 by lia. rewrite E in E1. simplify_eq.
  eexists r, _. split; [|split; [|by split]].
  - unfold owned. rewrite (lay_board _ _ _ _ _ _ _ _ _ _ _ _ _ L).
    right. by eapply list_elem_of_lookup_2.
  - intros ->. rewrite (lay_board _ _ _ _ _ _ _ _ _ _ _ _ _ L) in Hrow.
    done.
Qed.

Lemma blank_board_fresh s :
  ∃ b h,
    blank_board s = Ok (b, State h (board s) (current_player s))
    ∧ store s ⊆ h
    ∧ ∀ l, l ∈ owned h b → store s !! l = None.
Proof.
  unfold blank_board.
  destruct (blank_rows_run 3 s) as (rs & h & E & Hsub & _ & _ & Hrs).
  step E. set (s1 := State _ _ _).
  destruct (alloc_run (ORows rs) s1) as (b & Eb & Fb).
  rewrite Eb. simpl in *. eexists b, _. split; [done|].
  split; [etrans; [done|by apply insert_subseteq]|].
  unfold owned. rewrite lookup_insert_eq.
  intros l [->|Hl]%elem_of_cons.
  - by eapply lookup_weaken_None.
  - by apply Hrs.
Qed.

Lemma owned_same h h' b :
  h' !! b = h !! b → owned h' b = owned h b.
Proof. intros E. unfold owned. by rewrite E. Qed.

(** What a call does to the store: the objects outside the lists of the
    board stay as they are, and the lists of the board after the call are
    those before it or new ones. *)
Lemma do_call_store s c a s' :
  wf s = true → do_call c s = Ok (a, s') →
  (∀ l, l ∉ owned (store s) (board s) → is_Some (store s !! l) →
     store s' !! l = store s !! l)
  ∧ (∀ l, l ∈ owned (store s') (board s') →
       l ∈ owned (store s) (board s) ∨ store s !! l = None).
Proof.
  intros Hwf E.
  match goal with |- ?G => assert (s' = s → G) as Hsame end.
  { intros ->. split; [done|]. by left. }
  destruct (wf_layout s Hwf) as (r0&r1&r2&a0&a1&a2&b0&b1&b2&c0&c1&c2&L).
  pose proof (lay_board _ _ _ _ _ _ _ _ _ _ _ _ _ L) as Hboard.
  destruct c as [row col| | | | |]; simpl in E.
  - destruct (make_move_run s row col Hwf)
      as [[E0 _]|(s0 & E0 & _)]; rewrite (bind_Ok _ _ _ _ _ E0) in E;
      injection E as _ <-; [by apply Hsame|].
    destruct (make_move_write s row col _ _ Hwf E0)
      as [->|(r & cs & Hr & Hne & Hst & Hb)]; [by apply Hsame|].
    split.
    + intros l Hl _. rewrite Hst. apply lookup_insert_ne. by intros <-.
    + intros l Hl. left. rewrite Hb in Hl.
      rewrite (owned_same (store s)) in Hl; [done|].
      rewrite Hst. by apply lookup_insert_ne.
  - destruct (check_winner_run s Hwf) as (g & _ & E0).
    rewrite (bind_Ok _ _ _ _ _ E0) in E. injection E as _ <-.
    by apply Hsame.
  - destruct (is_board_full_run s Hwf) as (g & _ & E0).
    rewrite (bind_Ok _ _ _ _ _ E0) in E. injection E as _ <-.
    by apply Hsame.
  - destruct (is_game_over_run s Hwf) as (g & _ & E0).
    rewrite (bind_Ok _ _ _ _ _ E0) in E. injection E as _ <-.
    by apply Hsame.
  - destruct (get_board_run s Hwf) as (b & s1 & E0 & Hsub & Hb & _).
    rewrite (bind_Ok _ _ _ _ _ E0) in E. injection E as _ <-.
    split.
    + intros l _ [o Hl]. rewrite Hl. by eapply lookup_weaken.
    + intros l Hl. left. rewrite Hb in Hl.
      rewrite (owned_same (store s)) in Hl; [done|].
      rewrite Hboard. by eapply lookup_weaken.
  - unfold reset in E.
    destruct (blank_board_fresh s) as (b & h & E0 & Hsub & Hfresh).
    rewrite (bind_Ok _ _ _ _ _ (bind_Ok _ _ _ _ _ E0)) in E.
    injection E as _ <-. simpl. split.
    + intros l _ [o Hl]. rewrite Hl. by eapply lookup_weaken.
    + intros l Hl. right. by apply Hfresh.
Qed.

(** X5. No call of a method changes a list object other than the lists of
    the game's own board (the outer list and its rows): every other
    object of the store is after the call as it was before, and the lists
    of the board after the call are those before it or, after [reset],
    lists that did not exist before. *)
Theorem calls_write_own_lists s c :
  wf s = true →
  ∃ a s',
    do_call c s = Ok (a, s')
    ∧ (∀ l, l ∉ owned (store s) (board s) → is_Some (store s !! l) →
         store s' !! l = store s !! l)
    ∧ (∀ l, l ∈ owned (store s') (board s') →
         l ∈ owned (store s) (board s) ∨ l ∉ dom (store s)).
Proof.
  intros Hwf. destruct (do_call_step s c Hwf) as (a & s' & E & _).
  exists a, s'. split; [done|].
  destruct (do_call_store s c a s' Hwf E) as [Hframe Hown].
  split; [done|]. intros l Hl.
  destruct (Hown l Hl) as [?|Hn]; [by left|right].
  by apply not_elem_of_dom.
Qed.

Lemma calls_write_own_lists_witness :
  let s := played [GetBoard] in
  wf s = true
  ∧ ∃ a s', do_call (MakeMove 0 0) s = Ok (a, s')
            ∧ store s' !! 5%positive = store s !! 5%positive
            ∧ store s' !! 1%positive = Some (OCells ["X"; " "; " "]).
Proof.
  intros s. split; [by vm_compute|].
  destruct (calls_write_own_lists s (MakeMove 0 0))
    as (a & s' & E & Hframe & _); [by vm_compute|].
  exists a, s'. split; [done|]. split.
  - apply Hframe.
    + apply (bool_decide_unpack _). by vm_compute.
    + apply (bool_decide_unpack _). by vm_compute.
  - vm_compute in E. injection E as _ <-. by vm_compute.
Defined.

Lemma deep_inv h b g :
  deep h b = Some g →
  ∃ rs, h !! b = Some (ORows rs)
        ∧ Forall2 (λ r cs, h !! r = Some (OCells cs)) rs g.
Proof.
  unfold deep. destruct (h !! b) as [[rs|]|]; try done.
  intros Hg%mapM_Some. exists rs. split; [done|].
  eapply Forall2_impl; [done|]. intros r cs. unfold row_value.
  by destruct (h !! r) as [[|]|]; intros [= ->].
Qed.

(** A board value read through lists that a step leaves alone is the
    same after the step. *)
Lemma deep_frame h h' b g :
  deep h b = Some g →
  (∀ l, l ∈ owned h b → h' !! l = h !! l) →
  deep h' b = Some g ∧ owned h' b = owned h b.
Proof.
  intros (rs & Hb & Hrs)%deep_inv Hsame.
  assert (owned h b = b :: rs) as Ho by (unfold owned; by rewrite Hb).
  assert (h' !! b = Some (ORows rs)) as Hb'.
  { rewrite Hsame; [done|]. rewrite Ho. by left. }
  split; [|by apply owned_same; rewrite Hb'].
  eapply deep_Some; [done|].
  apply Forall2_same_length_lookup. split; [by eapply Forall2_length|].
  intros i r cs Hr Hcs. rewrite Hsame.
  - destruct (Forall2_lookup_l _ _ _ _ _ Hrs Hr) as (cs' & Hcs' & Hl).
    congruence.
  - rewrite Ho. right. by eapply list_elem_of_lookup_2.
Qed.

Lemma deep_owned_Some h b g l :
  deep h b = Some g → l ∈ owned h b → is_Some (h !! l).
Proof.
  intros (rs & Hb & Hrs)%deep_inv. unfold owned. rewrite Hb.
  intros [->|[i Hi]%list_elem_of_lookup_1]%elem_of_cons; [by eexists|].
  destruct (Forall2_lookup_l _ _ _ _ _ Hrs Hi) as (cs & _ & Hl).
  by eexists.
Qed.

(** X6. A list returned by [get_board()] keeps the value the board had at
    the time of the call, whatever calls follow on the game: later moves,
    resets and further calls of [get_board] do not show in it. *)
Theorem snapshot_survives_calls s cs :
  wf s = true →
  ∃ b s1 tr s2,
    get_board s = Ok (b, s1)
    ∧ run_calls cs s1 = Ok (tr, s2)
    ∧ deep (store s2) b = grid s.
Proof.
  intros Hwf.
  destruct (get_board_run s Hwf)
    as (b & s1 & E & Hsub & Hb & _ & Hdeep & _ & Hwf1 & Hown).
  destruct (wf_grid s Hwf) as (a0&a1&a2&b0&b1&b2&c0&c1&c2&Hg&_).
  rewrite Hg in *. set (g := [[a0; a1; a2]; _; _]) in *. clearbody g.
  set (I := λ t : state,
         deep (store t) b = Some g
         ∧ ∀ l, l ∈ owned (store t) b → l ∉ owned (store t) (board t)).
  destruct (run_calls_invariant I cs) with (s := s1)
    as (tr & s2 & E2 & _ & Hd & _); [| done | |].
  - intros t c a t' Hwft [Hd Hdis] Ec.
    destruct (do_call_store t c a t' Hwft Ec) as [Hframe Hnew].
    destruct (deep_frame (store t) (store t') b g Hd) as [Hd' Ho'].
    { intros l Hl. apply Hframe; [by apply Hdis|].
      by eapply deep_owned_Some. }
    split; [done|]. rewrite Ho'. intros l Hl Hl'.
    destruct (Hnew l Hl') as [?|Hn]; [by eapply Hdis|].
    destruct (deep_owned_Some _ _ _ _ Hd Hl) as [o Ho]. congruence.
  - split; [done|]. intros l Hl Hl'. apply (Hown l Hl).
    destruct (wf_layout s Hwf) as (r0&r1&r2&?&?&?&?&?&?&?&?&?&L).
    pose proof (lay_board _ _ _ _ _ _ _ _ _ _ _ _ _ L) as Hboard.
    rewrite Hb in Hl'.
    rewrite (owned_same (store s)) in Hl'
      by (rewrite Hboard; by eapply lookup_weaken).
    apply elem_of_dom. unfold owned in Hl'. rewrite Hboard in Hl'.
    destruct L as [? H0 H1 H2 _ _ _ _ _].
    rewrite !elem_of_cons, elem_of_nil in Hl'.
    destruct Hl' as [->|[->|[->|[->|[]]]]]; by eexists.
  - by exists b, s1, tr, s2.
Qed.

Lemma snapshot_survives_calls_witness :
  let cs := [MakeMove 0 0; GetBoard; Reset; MakeMove 1 1] in
  wf new_game = true
  ∧ get_board new_game = Ok (8%positive, played [GetBoard])
  ∧ deep (store (played (GetBoard :: cs))) 8%positive = Some blank
  ∧ cell (played (GetBoard :: cs)) 1 1 = Some "X".
Proof.
  intros cs. split; [by vm_compute|].
  destruct (snapshot_survives_calls new_game cs)
    as (b & s1 & tr & s2 & E & E2 & Hd); [by vm_compute|].
  assert (b = 8%positive ∧ s1 = played [GetBoard]) as [-> ->].
  { clear E2 Hd. vm_compute in E. injection E as <- <-.
    vm_compute. split; reflexivity. }
  split; [exact E|]. split; [|vm_compute; reflexivity].
  assert (s2 = played (GetBoard :: cs)) as <-.
  { clear E Hd. vm_compute in E2. injection E2 as _ <-.
    vm_compute. reflexivity. }
  rewrite Hd. vm_compute. reflexivity.
Defined.

(** * The console program *)

(** ** [print_board] *)

Lemma print_rows_run rows : ∀ i s g,
  Forall2 (λ r cs, store s !! r = Some (OCells cs)) rows g →
  print_rows i rows s = Ok (rows_text i g, s).
Proof.
  induction rows as [|row rest IH]; intros i s g Hg.
  { by apply Forall2_nil_inv_l in Hg as ->. }
  apply Forall2_cons_inv_l in Hg as (cs & g' & Hrow & Hrest & ->).
  simpl. step (cells_of_run _ _ _ Hrow). by step (IH (S i) s g' Hrest).
Qed.

Lemma print_board_run s b g :
  deep (store s) b = Some g → print_board b s = Ok (board_text g, s).
Proof.
  intros (rs & Hb & Hrs)%deep_inv. unfold print_board.
  step (rows_of_run _ _ _ Hb). by step (print_rows_run rs 0 s g Hrs).
Qed.




Lemma is_cell_char v : is_cell v = true → ∃ c, v = String c "".
Proof. intros [->|[->| ->]]%is_cell_cases; by eexists. Qed.

(** X8. Two game states print the same text exactly when their boards
    hold the same nine cells: [print_board] shows the board of a game
    (the board itself or a list from [get_board]) without loss. *)
Theorem print_board_shows_board s1 s2 b1 b2 :
  wf s1 = true → wf s2 = true →
  deep (store s1) b1 = grid s1 → deep (store s2) b2 = grid s2 →
  ∃ o1 o2,
    print_board b1 s1 = Ok (o1, s1)
    ∧ print_board b2 s2 = Ok (o2, s2)
    ∧ (o1 = o2 ↔ grid s1 = grid s2).
Proof.
  intros (a0&a1&a2&b0&b1'&b2'&c0&c1&c2&Hg1&Hc1)%wf_grid
         (x0&x1&x2&y0&y1&y2&z0&z1&z2&Hg2&Hc2)%wf_grid Hd1 Hd2.
  rewrite Hg1 in *. rewrite Hg2 in *.
  eexists _, _. split; [by apply print_board_run|].
  split; [by apply print_board_run|].
  split; [|by intros [= -> -> -> -> -> -> -> -> ->]].
  rewrite !Forall_cons in Hc1, Hc2.
  destruct Hc1 as
    ([? ->]%is_cell_char & [? ->]%is_cell_char & [? ->]%is_cell_char
     & [? ->]%is_cell_char & [? ->]%is_cell_char & [? ->]%is_cell_char
     & [? ->]%is_cell_char & [? ->]%is_cell_char & [? ->]%is_cell_char & _).
  destruct Hc2 as
    ([? ->]%is_cell_char & [? ->]%is_cell_char & [? ->]%is_cell_char
     & [? ->]%is_cell_char & [? ->]%is_cell_char & [? ->]%is_cell_char
     & [? ->]%is_cell_char & [? ->]%is_cell_char & [? ->]%is_cell_char & _).
  unfold board_text. simpl. intros H. by simplify_eq.
Qed.

Lemma print_board_shows_board_witness :
  let s1 := played [MakeMove 0 0; GetBoard] in
  let s2 := played [MakeMove 1 1] in
  wf s1 = true ∧ wf s2 = true
  ∧ ∃ o1 o2,
      print_board 8%positive s1 = Ok (o1, s1)
      ∧ print_board (board s2) s2 = Ok (o2, s2)
      ∧ o1 ≠ o2.
Proof.
  intros s1 s2. split; [by vm_compute|]. split; [by vm_compute|].
  destruct (print_board_shows_board s1 s2 8%positive (board s2))
    as (o1 & o2 & E1 & E2 & Hiff);
    [by vm_compute|by vm_compute|by vm_compute|done|].
  exists o1, o2. split; [done|]. split; [done|].
  intros Ho%Hiff. by vm_compute in Ho.
Defined.

(** ** The script *)

Lemma emit_run o (m : M (list io * bool)) s o' e s' :
  m s = Ok ((o', e), s') → emit o m s = Ok ((o ++ o', e)%list, s').
Proof. intros E. unfold emit. by step E. Qed.

(** The winner of a game state is a mark, so it counts as true. *)
Lemma first_winner_mark s g m :
  wf s = true → grid s = Some g → first_winner g lines = Some m →
  is_mark m = true.
Proof.
  intros Hwf Hg Hm. pose proof (first_winner_spec g lines) as Hspec.
  rewrite Hm in Hspec.
  destruct Hspec as (k & l & Hk & [Hall Hne]%line_winner_Some & _).
  assert (length l = 3%nat) as Hlen.
  { apply lines_length. by eapply list_elem_of_lookup_2. }
  destruct l as [|[i j] l]; [done|].
  apply Forall_cons in Hall as [Hat _].
  assert (is_cell m = true) as [->|Hmark]%is_cell_cases.
  { apply (wf_cell s i j); [done|]. unfold cell. by rewrite Hg. }
  - done.
  - by apply is_mark_cases.
Qed.

Lemma truthy_mark m : is_mark m = true → truthy (Some m) = true.
Proof. by intros [-> | ->]%is_mark_cases. Qed.

Lemma play_loop_eq ins :
  play_loop ins =
    (over ← is_game_over;
     if (over : bool) then ret ([], false)
     else
       b ← get_board;
       shown ← print_board b;
       p ← self_current_player;
       emit (shown ++ [Print ("Player " ++ p ++ "'s turn")%string;
                       Prompt "Enter row (0-2): "])%list
         (after_prompt ins)).
Proof. by destruct ins. Qed.

(** The three queries read the board value and nothing else. *)
Lemma queries_same_grid s t :
  wf s = true → wf t = true → grid t = grid s →
  ∃ w f,
    check_winner s = Ok (w, s) ∧ check_winner t = Ok (w, t)
    ∧ is_board_full s = Ok (f, s) ∧ is_board_full t = Ok (f, t)
    ∧ is_game_over s = Ok (bool_decide (is_Some w) || f, s)
    ∧ is_game_over t = Ok (bool_decide (is_Some w) || f, t)
    ∧ (is_Some w → truthy w = true)
    ∧ (w = None → truthy w = false).
Proof.
  intros Hs Ht Hg.
  destruct (wf_grid s Hs) as (a0&a1&a2&b0&b1&b2&c0&c1&c2&Hgs&_).
  rewrite Hgs in Hg. set (g := [[a0; a1; a2]; _; _]) in *. clearbody g.
  exists (first_winner g lines), (no_blank g).
  split; [by apply check_winner_grid|].
  split; [by apply check_winner_grid|].
  split; [by apply is_board_full_grid|].
  split; [by apply is_board_full_grid|].
  split; [by apply is_game_over_grid|].
  split; [by apply is_game_over_grid|].
  split; [|by intros ->].
  intros [m Hm]. rewrite Hm. apply truthy_mark.
  by eapply first_winner_mark.
Qed.

Lemma last_app_Some {A} (l1 l2 : list A) x :
  last l2 = Some x → last (l1 ++ l2) = Some x.
Proof. intros H. by rewrite last_app, H. Qed.

Lemma ends_prepend pre out eof s :
  ends (λ _, True) out eof s → ends (λ _, True) (pre ++ out) eof s.
Proof.
  unfold ends.
  intros [?|[(? & Hl & ?)|[(? & w & Hl & ?)|?]]].
  - by left.
  - right; left. split; [done|]. split; [by apply last_app_Some|done].
  - right; right; left. split; [done|]. exists w.
    split; [by apply last_app_Some|done].
  - by right; right; right.
Qed.

(** A mark put on a board with no complete line: the lines it completes
    hold that mark. *)
Lemma placed_winner g i j p v :
  at_ g (i, j) = Some v → first_winner g lines = None →
  (∀ l m, l ∈ lines → line_wins (place g i j p) l m → m = p)
  ∧ (first_winner (place g i j p) lines = None
     ∨ first_winner (place g i j p) lines = Some p).
Proof.
  intros Hv Hnone.
  assert (∀ l m, l ∈ lines → line_wins (place g i j p) l m → m = p)
    as Hlines.
  { intros l m Hl Hw. eapply line_wins_placed; [done| |done].
    by apply first_winner_None_inv. }
  split; [done|].
  pose proof (first_winner_spec (place g i j p) lines) as Hspec.
  destruct (first_winner (place g i j p) lines) as [m|]; [|by left].
  right. destruct Hspec as (k & l & Hk & Hl%line_winner_Some & _).
  f_equal. eapply Hlines; [|done]. by eapply list_elem_of_lookup_2.
Qed.

(** The loop on a game state.  When the game is over at the start the
    loop does nothing; otherwise it ends in one of the four ways of
    [ends], the tie not yet announced. *)
Lemma play_loop_run n : ∀ ins s,
  (length ins ≤ n)%nat → wf s = true →
  ∃ out eof s',
    play_loop ins s = Ok ((out, eof), s') ∧ wf s' = true
    ∧ (eof = true → Forall is_Some ins)
    ∧ ((is_game_over s = Ok (true, s) ∧ out = [] ∧ eof = false ∧ s' = s)
       ∨ (is_game_over s = Ok (false, s) ∧ ends (λ _, True) out eof s')).
Proof.
  induction n as [n IH] using lt_wf_ind. intros ins s Hlen Hwf.
  rewrite play_loop_eq.
  destruct (get_board_run s Hwf)
    as (b & s1 & E1 & _ & _ & Hp1 & Hd1 & Hg1 & Hwf1 & _).
  destruct (queries_same_grid s s1 Hwf Hwf1 Hg1)
    as (w & f & Ew & Ew1 & Ef & Ef1 & Eo & Eo1 & _ & _).
  step Eo. destruct (bool_decide (is_Some w) || f) eqn:Hov.
  { exists [], false, s. split; [done|]. split; [done|].
    split; [done|]. by left. }
  apply orb_false_iff in Hov as [Hw ->].
  assert (w = None) as ->.
  { apply bool_decide_eq_false in Hw. destruct w; [|done].
    destruct Hw. by eexists. }
  clear Hw. step E1.
  destruct (wf_grid s Hwf) as (a0&a1&a2&b0&b1&b2&c0&c1&c2&Hg&_).
  rewrite Hg in Hd1, Hg1. set (g := [[a0; a1; a2]; _; _]) in *.
  clearbody g.
  step (print_board_run s1 b g Hd1).
  step (eq_refl : self_current_player s1 = Ok (current_player s1, s1)).
  assert (∃ out eof s',
            after_prompt ins s1 = Ok ((out, eof), s') ∧ wf s' = true
            ∧ (eof = true → Forall is_Some ins)
            ∧ ends (λ _, True) out eof s')
    as (out & eof & s' & E & Hwf' & Heof & Hends).
  2:{ eexists _, eof, s'. rewrite (emit_run _ _ _ _ _ _ E).
      split; [done|]. split; [done|]. split; [done|]. right.
      split; [done|]. by apply ends_prepend. }
  assert (ends (λ _, True) [Print (nl ++ "Game ended.")%string] false s1)
    as Hended.
  { right; left. by repeat split. }
  destruct ins as [|[row|] ins1]; simpl.
  { exists [], true, s1. repeat split; try done. by left. }
  2:{ eexists _, false, s1. by repeat split. }
  assert (∃ out eof s',
            match ins1 with
            | [] => ret ([], true)
            | None :: _ => ret ([Print (nl ++ "Game ended.")%string], false)
            | Some col :: ins2 =>
                ok ← make_move row col;
                if (ok : bool) then
                  winner ← check_winner;
                  if truthy winner then
                    b ← get_board;
                    shown ← print_board b;
                    ret ((shown ++ [Print ("Player " ++ default "" winner
                                           ++ " wins!")%string])%list,
                         false)
                  else play_loop ins2
                else
                  emit [Print "Invalid move! Try again."] (play_loop ins2)
            end s1 = Ok ((out, eof), s') ∧ wf s' = true
            ∧ (eof = true → Forall is_Some ins1)
            ∧ ends (λ _, True) out eof s')
    as (out & eof & s' & E & Hwf' & Heof & Hends).
  2:{ eexists _, eof, s'. rewrite (emit_run _ _ _ _ _ _ E).
      split; [done|]. split; [done|].
      split; [|by apply ends_prepend].
      intros He. apply Forall_cons. split; [by eexists|by apply Heof]. }
  destruct ins1 as [|[col|] ins2]; simpl.
  { exists [], true, s1. repeat split; try done. by left. }
  2:{ eexists _, false, s1. by repeat split. }
  simpl in Hlen.
  destruct (make_move_run s1 row col Hwf1)
    as [[Em _]|(s2 & Em & Hr & Hc & He)]; step Em.
  - (* the move is refused *)
    destruct (IH (length ins2) ltac:(lia) ins2 s1 ltac:(lia) Hwf1)
      as (out & eof & s' & E & Hwf' & Heof & [(Ho & _)|[_ Hends]]);
      [congruence|].
    eexists _, eof, s'. rewrite (emit_run _ _ _ _ _ _ E).
    split; [done|]. split; [done|]. split; [|by apply ends_prepend].
    intros He. apply Forall_cons. split; [by eexists|by apply Heof].
  - (* the move is made *)
    destruct (make_move_accept_run s1 row col Hwf1 Hr Hc He)
      as (s2' & g1 & Em' & Hg1' & Hg2 & Hp2 & _ & Hwf2).
    assert (s2' = s2) as -> by congruence.
    assert (g1 = g) as -> by congruence.
    unfold cell in He. rewrite Hg1 in He. simpl in He.
    assert (first_winner g lines = None) as Hnone.
    { rewrite (check_winner_grid s1 g Hwf1 Hg1) in Ew1. congruence. }
    destruct (placed_winner g (Z.to_nat row) (Z.to_nat col)
                (current_player s1) " " He Hnone) as [Hlines Hw2].
    set (g2 := place g _ _ _) in *.
    step (check_winner_grid s2 g2 Hwf2 Hg2).
    destruct Hw2 as [Hw2|Hw2]; rewrite Hw2; simpl truthy.
    + (* no winner: the loop goes on *)
      destruct (IH (length ins2) ltac:(lia) ins2 s2 ltac:(lia) Hwf2)
        as (out & eof & s' & E & Hwf' & Heof & Hcases).
      exists out, eof, s'. split; [done|]. split; [done|].
      split.
      { intros He'. apply Forall_cons. split; [by eexists|by apply Heof]. }
      destruct Hcases as [(Ho & -> & -> & ->)|[_ Hends]]; [|done].
      right; right; right. split; [done|]. split; [done|].
      split; [by rewrite (check_winner_grid s2 g2 Hwf2 Hg2), Hw2|].
      rewrite (is_game_over_grid s2 g2 Hwf2 Hg2), Hw2 in Ho.
      rewrite (is_board_full_grid s2 g2 Hwf2 Hg2). simpl in Ho.
      congruence.
    + (* the mover wins *)
      pose proof (wf_mark s1 Hwf1) as Hm.
      rewrite (truthy_mark _ Hm).
      destruct (get_board_run s2 Hwf2)
        as (bw & s3 & E3 & _ & _ & Hp3 & Hd3 & Hg3 & Hwf3 & _).
      step E3. rewrite Hg2 in Hd3, Hg3.
      step (print_board_run s3 bw g2 Hd3).
      eexists _, false, s3. split; [done|]. split; [done|].
      split; [done|]. right; right; left. split; [done|].
      exists (current_player s1).
      split; [by rewrite last_snoc|].
      split; [by rewrite (check_winner_grid s3 g2 Hwf3 Hg3), Hw2|].
      split; [by rewrite Hp3, Hp2, other_other|].
      intros g' l m Hg' Hl Hwin. apply (Hlines l m Hl).
      by assert (g' = g2) as -> by congruence.
Qed.

Lemma ending_prepend pre out eof s :
  ending out eof s → ending (pre ++ out) eof s.
Proof.
  unfold ending, ends.
  intros [?|[(? & Hl & ?)|[(? & w & Hl & ?)|(? & Hl & ? & ?)]]].
  - by left.
  - right; left. split; [done|]. split; [by apply last_app_Some|done].
  - right; right; left. split; [done|]. exists w.
    split; [by apply last_app_Some|done].
  - right; right; right. split; [done|].
    split; [by apply last_app_Some|done].
Qed.

(** X9. Run in any store on any list of entries, the script returns
    without an [IndexError] and leaves a game state.  It ends in one of
    four ways.  The entries run out, and then they were all numbers.  Or
    an entry is no number: the last line printed is ["\nGame ended."] and
    the game is not over.  Or the last line is ["Player w wins!"]: then
    [check_winner()] returns [w], [w] is the player who made the last
    move, and every complete line of the board holds [w].  Or the last
    line is ["It's a tie!"]: then the board is full and
    [check_winner()] returns [None]. *)
Theorem main_ends h ins :
  ∃ out eof s,
    main h ins = Ok ((out, eof), s)
    ∧ wf s = true
    ∧ (eof = true → Forall is_Some ins)
    ∧ ending out eof s.
Proof.
  destruct (init_run h) as (b0 & r0 & r1 & r2 & h0 & E0 & _ & L0).
  set (s0 := State h0 b0 "X") in *.
  assert (wf s0 = true) as Hwf0 by (by eapply layout_wf).
  assert (is_game_over s0 = Ok (false, s0)) as Ho0.
  { by rewrite (is_game_over_grid s0 blank Hwf0 (layout_grid _ _ _ _ _ _ _
                   _ _ _ _ _ _ L0)). }
  unfold main. rewrite E0.
  destruct (play_loop_run (length ins) ins s0 (le_n _) Hwf0)
    as (out & eof & s & E & Hwf & Heof & [(Ho & _)|[_ Hends]]);
    [congruence|].
  assert (∀ o e t, ending o e t → wf t = true →
            (e = true → Forall is_Some ins) →
            (r ← play_loop ins;
             if (r.2 : bool) then ret r
             else
               full ← is_board_full;
               if (full : bool) then
                 winner ← check_winner;
                 if truthy winner then ret r
                 else
                   b ← get_board;
                   shown ← print_board b;
                   ret ((r.1 ++ shown ++ [Print "It's a tie!"])%list, false)
               else ret r) s0 = Ok ((o, e), t) →
            ∃ out eof s,
              emit [Print "Tic-Tac-Toe Game"; Print "Player X starts"]
                (r ← play_loop ins;
                 if (r.2 : bool) then ret r
                 else
                   full ← is_board_full;
                   if (full : bool) then
                     winner ← check_winner;
                     if truthy winner then ret r
                     else
                       b ← get_board;
                       shown ← print_board b;
                       ret ((r.1 ++ shown ++ [Print "It's a tie!"])%list,
                            false)
                   else ret r) s0 = Ok ((out, eof), s)
              ∧ wf s = true
              ∧ (eof = true → Forall is_Some ins)
              ∧ ending out eof s) as Hwrap.
  { intros o e t He Hwt Hef Er. eexists _, e, t.
    rewrite (emit_run _ _ _ _ _ _ Er). split; [done|]. split; [done|].
    split; [done|]. by apply ending_prepend. }
  destruct (queries_same_grid s s Hwf Hwf eq_refl)
    as (w & f & Ew & _ & Ef & _ & Eo & _ & Htr & Hfa).
  destruct Hends as [->|[(-> & Hl & Hno)|[(-> & v & Hl & Hv & Hrest)
                                          |(-> & _ & Hnone & Hfull)]]].
  - (* the entries ran out *)
    apply (Hwrap out true s); [by left|done|done|]. by step E.
  - (* an entry was no number *)
    apply (Hwrap out false s); [right; left; by repeat split|done|done|].
    step E. simpl. step Ef.
    assert (f = false) as ->; [|done].
    rewrite Eo in Hno. injection Hno as Hno.
    by apply orb_false_iff in Hno as [_ ->].
  - (* a player won *)
    apply (Hwrap out false s);
      [right; right; left; split; [done|]; by exists v|done|done|].
    step E. simpl. step Ef. destruct f; [|done]. step Ew.
    assert (w = Some v) as -> by congruence.
    by rewrite Htr.
  - (* the board is full *)
    assert (w = None) as -> by congruence.
    assert (f = true) as -> by congruence.
    destruct (get_board_run s Hwf)
      as (b & s1 & E1 & _ & _ & _ & Hd1 & Hg1 & Hwf1 & _).
    destruct (wf_grid s Hwf) as (a0&a1&a2&b0'&b1&b2&c0&c1&c2&Hg&_).
    rewrite Hg in Hd1.
    destruct (queries_same_grid s s1 Hwf Hwf1 Hg1)
      as (w' & f' & Ew' & Ew1 & Ef' & Ef1 & _).
    assert (w' = None) as -> by congruence.
    assert (f' = true) as -> by congruence.
    eapply (Hwrap _ false s1); [|done|done|].
    2:{ step E. simpl. step Ef. step Ew. simpl. step E1.
        by step (print_board_run s1 b _ Hd1). }
    right; right; right. split; [done|]. split; [|done].
    cbv beta. by do 2 apply last_app_Some.
Qed.
